(** * Modal dialog widget (widgets/dialog/dialog.go)

    A shallow embedding of the dialog package of gowid: the dialog widget,
    the splice protocol [Open] / [OpenExt] / [Close], the modal input
    routing of [UserInput], the content builder [New] and the [Maximizer].

    Go pointers are addresses into a store ([gmap loc Object]); a Go
    interface value is [option loc] ([None] is the nil interface).  A call
    through a nil interface or a nil pointer, and a failed type assertion
    without the comma-ok form, panics: every operation runs in the monad
    [M], whose result is either [Ok] or [Panic] together with the world at
    that moment.  The world is the store and the trace of the registry
    firings.  The [app] argument is carried along as in the source. *)

From Stdlib Require Import ZArith QArith.
From stdpp Require Import base option list strings gmap fin_maps pretty.

Open Scope Z_scope.

(** ** Values of the surrounding toolkit *)

(** Addresses of heap objects (Go pointers). *)
Abbreviation loc := positive.

(** A [gowid.IWidget] / [gowid.ISettableComposite] interface value:
    [None] is nil, [Some l] holds the pointer [l]. *)
Abbreviation IWidget := (option loc).
Abbreviation ISettableComposite := (option loc).
Abbreviation IApp := (option loc).

(** Modelled from the spec: [gowid.IWidgetDimension], the Size Policy type
    of the rendering engine ("fit to natural size", "proportional share of
    available space", "fraction of available space", ...), under gowid's
    names; [NilDimension] is the nil interface value.  The ratio of
    [RenderWithRatio] is a float in the source and a rational here; the
    package only ever writes the constant 1.0. *)
Inductive IWidgetDimension :=
| NilDimension
| RenderFixed
| RenderFlow
| RenderFlowWith (C : Z)
| RenderMax
| RenderWithUnits (U : Z)
| RenderWithWeight (W : Z)
| RenderWithRatio (R : Q)
| RenderBox (C R : Z).

(** Modelled from the spec: the test [_, ok := d.(gowid.IRenderFixed)],
    "widthPolicy denotes size to natural content width"; of the size
    policies only [gowid.RenderFixed] is an [IRenderFixed]. *)
Definition IRenderFixed (d : IWidgetDimension) : bool :=
  match d with
  | RenderFixed => true
  | _ => false
  end.

Inductive IVAlignment := VAlignMiddle | VAlignTop | VAlignBottom.
Inductive IHAlignment := HAlignMiddle | HAlignLeft | HAlignRight.

(** [gowid.IRenderSize] and [gowid.Selector], passed through to the body. *)
Inductive IRenderSize :=
| SizeBox (C R : Z)
| SizeFlowWith (C : Z)
| SizeFixed.

Record Selector := { Focus : bool }.

(** [tcell.Key] and the two keys the dialog looks at, with tcell's key
    codes (ETX and ESC). *)
Abbreviation Key := Z.
Definition KeyCtrlC : Key := 3.
Definition KeyEsc : Key := 27.

(** An input event ([interface{}]): a [*tcell.EventKey], or anything else. *)
Inductive Event :=
| EventKey (key : Key)
| EventMouse (x y : Z) (buttons : Z)
| EventOther (tag : Z).

(** Colours and cell stylers are opaque handles. *)
Inductive Color := UrwidColor (name : string).

Inductive ICellStyler :=
| PaletteEntry (fg bg : Color)
| Styler (handle : Z).

Definition MakePaletteEntry (fg bg : Color) : ICellStyler := PaletteEntry fg bg.

Definition DefaultBackground := UrwidColor "white".
Definition DefaultButton := UrwidColor "dark blue".
Definition DefaultButtonText := UrwidColor "yellow".
Definition DefaultText := UrwidColor "black".

(** A [gowid.WidgetChangedFunction].  [QuitFn] is gowid's; [UserFn] is a
    function of the caller; [CloseFn d] is the closure
    [func(app, widget) { res.Close(app) }] whose captured variable holds
    the dialog at address [d]. *)
Inductive WidgetChangedFunction :=
| QuitFn
| UserFn (handle : Z)
| CloseFn (d : loc).

(** [gowid.WidgetCallback{Name, WidgetChangedFunction}]. *)
Record WidgetCallback := {
  Name : string;
  Fn : WidgetChangedFunction
}.

(** ** The package's types *)

Record Button := {
  Msg : string;
  Action : option WidgetChangedFunction
}.

Record Options := {
  Buttons : list Button;
  NoShadow : bool;
  NoEscapeClose : bool;
  ButtonStyle : option ICellStyler;
  BackgroundStyle : option ICellStyler
}.

(** The zero value of [Options]. *)
Definition zeroOptions : Options :=
  {| Buttons := []; NoShadow := false; NoEscapeClose := false;
     ButtonStyle := None; BackgroundStyle := None |}.

(** The variables set by [init]. *)
Definition Quit : Button := {| Msg := "Quit"; Action := Some QuitFn |}.
Definition Exit : Button := {| Msg := "Exit"; Action := Some QuitFn |}.
Definition CloseD : Button := {| Msg := "Close"; Action := None |}.
Definition Cancel : Button := {| Msg := "Cancel"; Action := None |}.
Definition OkCancel : list Button :=
  [ {| Msg := "Ok"; Action := Some QuitFn |}; Cancel ].
Definition ExitCancel : list Button := [Exit; Cancel].
Definition CloseOnly : list Button := [CloseD].
Definition NoButtons : list Button := [].

(** The keys of the callback registry ([OpenCloseCB], [SavedSubWidget] and
    [SavedContainer] struct types). *)
Inductive CallbackKey := OpenCloseCB | SavedSubWidgetCB | SavedContainerCB.

Global Instance CallbackKey_eq_dec : EqDecision CallbackKey.
Proof. solve_decision. Defined.

(** The widgets composed by [New] never change after construction except
    for the content wrapper, which lives in the store; they are a tree. *)
Inductive WidgetTree :=
| Text (s : string)
| ButtonW (inner : WidgetTree) (click : list WidgetCallback)
| Styled (inner : WidgetTree) (style : ICellStyler)
| StyledExt (inner : WidgetTree) (notFocus focus : ICellStyler)
| HPadding (inner : WidgetTree) (align : IHAlignment)
    (width : IWidgetDimension)
| Divider
| Columns (cols : list (WidgetTree * IWidgetDimension))
| Pile (rows : list (loc + WidgetTree))
| Framed (inner : WidgetTree) (style : ICellStyler)
| Opaque (inner : WidgetTree)
| Shadow (inner : WidgetTree) (offset : Z).

(** The dialog widget.  [iwidget] is the embedded [gowid.IWidget] field and
    [options] the [Options] field.  [Callbacks] is the registry made by
    [gowid.NewCallbacks()], modelled from the spec ("a mapping from
    event-key to ordered list of callbacks"): the registered callbacks by
    key and name, in registration order. *)
Record Widget := {
  iwidget : IWidget;
  options : Options;
  savedSubWidgetWidget : IWidget;
  savedContainer : ISettableComposite;
  contentWrapper : option loc;
  open : bool;
  NoFunction : option WidgetCallback;
  Callbacks : list (CallbackKey * string)
}.

(** The zero value of [Widget]. *)
Definition zeroWidget : Widget :=
  {| iwidget := None; options := zeroOptions;
     savedSubWidgetWidget := None; savedContainer := None;
     contentWrapper := None; open := false;
     NoFunction := None; Callbacks := [] |}.

(** Field assignments [w.f = v]. *)
Definition set_iwidget (v : IWidget) (d : Widget) : Widget :=
  {| iwidget := v; options := options d;
     savedSubWidgetWidget := savedSubWidgetWidget d;
     savedContainer := savedContainer d;
     contentWrapper := contentWrapper d; open := open d;
     NoFunction := NoFunction d; Callbacks := Callbacks d |}.

Definition set_savedSubWidgetWidget (v : IWidget) (d : Widget) : Widget :=
  {| iwidget := iwidget d; options := options d;
     savedSubWidgetWidget := v;
     savedContainer := savedContainer d;
     contentWrapper := contentWrapper d; open := open d;
     NoFunction := NoFunction d; Callbacks := Callbacks d |}.

Definition set_savedContainer (v : ISettableComposite) (d : Widget) : Widget :=
  {| iwidget := iwidget d; options := options d;
     savedSubWidgetWidget := savedSubWidgetWidget d;
     savedContainer := v;
     contentWrapper := contentWrapper d; open := open d;
     NoFunction := NoFunction d; Callbacks := Callbacks d |}.

Definition set_open (v : bool) (d : Widget) : Widget :=
  {| iwidget := iwidget d; options := options d;
     savedSubWidgetWidget := savedSubWidgetWidget d;
     savedContainer := savedContainer d;
     contentWrapper := contentWrapper d; open := v;
     NoFunction := NoFunction d; Callbacks := Callbacks d |}.

Definition set_Callbacks (v : list (CallbackKey * string)) (d : Widget)
    : Widget :=
  {| iwidget := iwidget d; options := options d;
     savedSubWidgetWidget := savedSubWidgetWidget d;
     savedContainer := savedContainer d;
     contentWrapper := contentWrapper d; open := open d;
     NoFunction := NoFunction d; Callbacks := v |}.

(** [Maximizer]; its fields [Width] and [Height] are [mWidth] and [mHeight]
    here, the plain names being the dialog's methods. *)
Record Maximizer := {
  Maxed : bool;
  mWidth : IWidgetDimension;
  mHeight : IWidgetDimension
}.

(** ** The store *)

Inductive Object :=
| ObjExternal (handle : Z)
| ObjTree (t : WidgetTree)
| ObjComposite (child : IWidget)
| ObjContainerWidget (inner : IWidget) (D : IWidgetDimension)
| ObjOverlay (top bottom : IWidget)
    (valign : IVAlignment) (height : IWidgetDimension)
    (halign : IHAlignment) (width : IWidgetDimension)
| ObjDialog (w : Widget).

(** One firing of a registry: the key, the widget it is fired for, and the
    names of the callbacks run, in registration order. *)
Record Fired := {
  fkey : CallbackKey;
  ftarget : loc;
  fran : list string
}.

Record World := {
  heap : gmap loc Object;
  trace : list Fired
}.

(** ** The panic monad *)

Inductive PanicReason :=
| NilDereference   (* call or field access through nil *)
| TypeAssertion    (* x.(T) on a value that is not a T *)
| IllTyped.        (* the store holds no object of the static type there *)

Inductive Result (A : Type) :=
| Ok (a : A) (s : World)
| Panic (why : PanicReason) (s : World).
Arguments Ok {A} a s.
Arguments Panic {A} why s.

Definition M (A : Type) := World -> Result A.

Definition ret {A} (a : A) : M A := fun s => Ok a s.

Definition bind {A B} (k : A -> M B) (m : M A) : M B :=
  fun s =>
    match m s with
    | Ok a s' => k a s'
    | Panic why s' => Panic why s'
    end.

Definition panic {A} (why : PanicReason) : M A := fun s => Panic why s.

(** stdpp's monad notations [x ← m; k] and [m;; k] for [M]. *)
Global Instance M_ret : MRet M := @ret.
Global Instance M_bind : MBind M := @bind.

(** Reading and writing the store. *)
Definition load (l : loc) : M Object :=
  fun s =>
    match heap s !! l with
    | Some o => Ok o s
    | None => Panic IllTyped s
    end.

Definition store (l : loc) (o : Object) : M unit :=
  fun s => Ok tt {| heap := <[l := o]> (heap s); trace := trace s |}.

Definition alloc (o : Object) : M loc :=
  fun s =>
    let l := fresh (dom (heap s)) in
    Ok l {| heap := <[l := o]> (heap s); trace := trace s |}.

Definition log (f : Fired) : M unit :=
  fun s => Ok tt {| heap := heap s; trace := trace s ++ [f] |}.

(** Dereferencing a [*Widget]. *)
Definition getWidget (w : loc) : M Widget :=
  o ← load w;
  match o with
  | ObjDialog d => ret d
  | _ => panic IllTyped
  end.

Definition setWidget (w : loc) (d : Widget) : M unit := store w (ObjDialog d).

(** ** Collaborators from the toolkit *)

(** Modelled from the spec: [gowid.RunWidgetCallbacks], the Observer
    Registry primitive, "fire all callbacks for a key synchronously", "in
    registration order".  The callbacks are application code outside this
    package: a firing is recorded in the trace with the names of the
    callbacks it runs, and has no effect on the store. *)
Definition RunWidgetCallbacks (c : list (CallbackKey * string))
    (name : CallbackKey) (app : IApp) (w : loc) : M unit :=
  log {| fkey := name; ftarget := w;
         fran := (filter (fun kv => kv.1 = name) c).*2 |}.

(** Modelled from the spec: [gowid.AddWidgetCallback] and
    [gowid.RemoveWidgetCallback], "register/remove a named callback against
    a named event key". *)
Definition AddWidgetCallback (c : list (CallbackKey * string))
    (name : CallbackKey) (f : string) : list (CallbackKey * string) :=
  c ++ [(name, f)].

Definition RemoveWidgetCallback (c : list (CallbackKey * string))
    (name : CallbackKey) (f : string) : list (CallbackKey * string) :=
  filter (fun kv => ¬ (kv.1 = name ∧ kv.2 = f)) c.

(** Modelled from the spec: [overlay.New], the Overlay construction
    primitive, "given (top widget, bottom widget, horizontal alignment,
    width policy, vertical alignment, height policy)", in the argument
    order of the call in [OpenExt]. *)
Definition overlay_New (top bottom : IWidget)
    (valign : IVAlignment) (height : IWidgetDimension)
    (halign : IHAlignment) (width : IWidgetDimension) : M loc :=
  alloc (ObjOverlay top bottom valign height halign width).

(** The type assertion of [x] to a pointer to [overlay.Widget]: panics
    unless [x] holds an overlay. *)
Definition assertOverlay (x : IWidget) : M loc :=
  match x with
  | None => panic TypeAssertion
  | Some l =>
      o ← load l;
      match o with
      | ObjOverlay _ _ _ _ _ _ => ret l
      | _ => panic TypeAssertion
      end
  end.

(** Modelled from the spec: the width and height policy accessors of
    [overlay.Widget], which the dialog's own accessors proxy to. *)
Definition overlay_Width (ov : loc) : M IWidgetDimension :=
  o ← load ov;
  match o with
  | ObjOverlay _ _ _ _ _ width => ret width
  | _ => panic IllTyped
  end.

Definition overlay_Height (ov : loc) : M IWidgetDimension :=
  o ← load ov;
  match o with
  | ObjOverlay _ _ _ height _ _ => ret height
  | _ => panic IllTyped
  end.

Definition overlay_SetWidth (ov : loc) (d : IWidgetDimension) (app : IApp)
    : M unit :=
  o ← load ov;
  match o with
  | ObjOverlay top bottom valign height halign _ =>
      store ov (ObjOverlay top bottom valign height halign d)
  | _ => panic IllTyped
  end.

Definition overlay_SetHeight (ov : loc) (d : IWidgetDimension) (app : IApp)
    : M unit :=
  o ← load ov;
  match o with
  | ObjOverlay top bottom valign _ halign width =>
      store ov (ObjOverlay top bottom valign d halign width)
  | _ => panic IllTyped
  end.

(** ** The dialog's accessors *)

Definition SubWidget (w : loc) : M IWidget :=
  d ← getWidget w; ret (iwidget d).

Definition SetSubWidget (w : loc) (inner : IWidget) (app : IApp) : M unit :=
  d ← getWidget w;
  setWidget w (set_iwidget inner d).

(** Modelled from the spec: the implementations of
    [gowid.ISettableComposite] outside this package, the Container
    capability, "get-child / set-child on a single slot" ([ObjComposite]).
    The dialog itself is such a composite through [SubWidget] and
    [SetSubWidget] above; a call through the interface dispatches on the
    object stored at the address. *)
Definition container_SubWidget (c : ISettableComposite) : M IWidget :=
  match c with
  | None => panic NilDereference
  | Some l =>
      o ← load l;
      match o with
      | ObjComposite child => ret child
      | ObjDialog _ => SubWidget l
      | _ => panic IllTyped
      end
  end.

Definition container_SetSubWidget (c : ISettableComposite) (inner : IWidget)
    (app : IApp) : M unit :=
  match c with
  | None => panic NilDereference
  | Some l =>
      o ← load l;
      match o with
      | ObjComposite _ => store l (ObjComposite inner)
      | ObjDialog _ => SetSubWidget l inner app
      | _ => panic IllTyped
      end
  end.

Definition GetNoFunction (w : loc) : WidgetCallback :=
  {| Name := "no"; Fn := CloseFn w |}.

Definition EscapeCloses (w : loc) : M bool :=
  d ← getWidget w; ret (negb (NoEscapeClose (options d))).

Definition IsOpen (w : loc) : M bool :=
  d ← getWidget w; ret (open d).

Definition SetOpen (w : loc) (open' : bool) (app : IApp) : M unit :=
  d ← getWidget w;
  let prev := open d in
  setWidget w (set_open open' d);;
  if negb (eqb prev open')
  then RunWidgetCallbacks (Callbacks d) OpenCloseCB app w
  else ret tt.

Definition SavedSubWidget (w : loc) : M IWidget :=
  d ← getWidget w; ret (savedSubWidgetWidget d).

Definition SetSavedSubWidget (w : loc) (w2 : IWidget) (app : IApp) : M unit :=
  d ← getWidget w;
  setWidget w (set_savedSubWidgetWidget w2 d);;
  RunWidgetCallbacks (Callbacks d) SavedSubWidgetCB app w.

Definition SavedContainer (w : loc) : M ISettableComposite :=
  d ← getWidget w; ret (savedContainer d).

Definition SetSavedContainer (w : loc) (c : ISettableComposite) (app : IApp)
    : M unit :=
  d ← getWidget w;
  setWidget w (set_savedContainer c d);;
  RunWidgetCallbacks (Callbacks d) SavedContainerCB app w.

Definition OnOpenClose (w : loc) (f : string) : M unit :=
  d ← getWidget w;
  setWidget w
    (set_Callbacks (AddWidgetCallback (Callbacks d) OpenCloseCB f) d).

Definition RemoveOnOpenClose (w : loc) (f : string) : M unit :=
  d ← getWidget w;
  setWidget w
    (set_Callbacks (RemoveWidgetCallback (Callbacks d) OpenCloseCB f) d).

(** [w.SavedContainer().SubWidget()] asserted to be the overlay, the common
    prefix of the four dimension accessors. *)
Definition liveOverlay (w : loc) : M loc :=
  c ← SavedContainer w;
  sub ← container_SubWidget c;
  assertOverlay sub.

Definition Width (w : loc) : M IWidgetDimension :=
  ov ← liveOverlay w; overlay_Width ov.

Definition SetWidth (w : loc) (d : IWidgetDimension) (app : IApp) : M unit :=
  ov ← liveOverlay w; overlay_SetWidth ov d app.

Definition Height (w : loc) : M IWidgetDimension :=
  ov ← liveOverlay w; overlay_Height ov.

Definition SetHeight (w : loc) (d : IWidgetDimension) (app : IApp) : M unit :=
  ov ← liveOverlay w; overlay_SetHeight ov d app.

(** [w.contentWrapper.D = d]. *)
Definition SetContentWidth (w : loc) (d : IWidgetDimension) (app : IApp)
    : M unit :=
  dlg ← getWidget w;
  match contentWrapper dlg with
  | None => panic NilDereference
  | Some cw =>
      o ← load cw;
      match o with
      | ObjContainerWidget inner _ => store cw (ObjContainerWidget inner d)
      | _ => panic IllTyped
      end
  end.

(** ** The splice controller *)

Definition Close (w : loc) (app : IApp) : M unit :=
  c ← SavedContainer w;
  sub ← SavedSubWidget w;
  container_SetSubWidget c sub app;;
  SetOpen w false app.

Definition OpenExt (w : loc) (container : ISettableComposite)
    (width height : IWidgetDimension) (app : IApp) : M unit :=
  bottom ← container_SubWidget container;
  ov ← overlay_New (Some w) bottom VAlignMiddle height HAlignMiddle width;
  (if IRenderFixed width
   then SetContentWidth w RenderFixed app
   else SetContentWidth w (RenderWithWeight 1) app);;
  sub ← container_SubWidget container;
  SetSavedSubWidget w sub app;;
  SetSavedContainer w container app;;
  container_SetSubWidget container (Some ov) app;;
  SetOpen w true app.

Definition Open (w : loc) (container : ISettableComposite)
    (width : IWidgetDimension) (app : IApp) : M unit :=
  OpenExt w container width RenderFlow app.

Definition Widget_Open (w : loc) (container : ISettableComposite)
    (width : IWidgetDimension) (app : IApp) : M unit :=
  Open w container width app.

Definition Widget_Close (w : loc) (app : IApp) : M unit := Close w app.

Definition OpenGlobally (w : loc) (width : IWidgetDimension) (app : IApp)
    : M unit :=
  Widget_Open w app width app.

(** ** Construction *)

(** The column built for button [i] of the options: [button.New] over the
    label with one click callback named [cb-i], styled, centred, weight 1.
    [res] is the variable the default closure captures. *)
Definition buttonColumn (res : loc) (backgroundStyle buttonStyle : ICellStyler)
    (i : nat) (b : Button) : WidgetTree * IWidgetDimension :=
  let bw :=
    ButtonW (Text (Msg b))
      [ match Action b with
        | None => {| Name := "cb-" +:+ pretty i; Fn := CloseFn res |}
        | Some action => {| Name := "cb-" +:+ pretty i; Fn := action |}
        end ] in
  (HPadding (StyledExt bw backgroundStyle buttonStyle) HAlignMiddle RenderFixed,
   RenderWithWeight 1).

(** The rows [pileW] that [New] hands to the pile: the wrapped content
    and, when there are columns, a styled divider and the columns. *)
Definition dialogRows (wrapper : loc)
    (colsW : list (WidgetTree * IWidgetDimension))
    (borderStyle : ICellStyler) : list (loc + WidgetTree) :=
  let pileW := [inl wrapper] in
  if decide (0 < length colsW)%nat
  then pileW ++ [inr (Styled Divider borderStyle); inr (Columns colsW)]
  else pileW.

(** What [New] puts around the pile [dialogContent]: the frame, the
    background style, the opaque cells, and a shadow unless [NoShadow]. *)
Definition dialogFrame (dialogContent : WidgetTree)
    (backgroundStyle borderStyle : ICellStyler) (noShadow : bool)
    : WidgetTree :=
  let d := Opaque (Styled (Framed dialogContent borderStyle) backgroundStyle) in
  if negb noShadow then Shadow d 1 else d.

(** The widget [d] of a [New] that returns: the framed pile of the rows. *)
Definition dialogBody (wrapper : loc)
    (colsW : list (WidgetTree * IWidgetDimension))
    (backgroundStyle borderStyle : ICellStyler) (noShadow : bool)
    : WidgetTree :=
  dialogFrame (Pile (dialogRows wrapper colsW borderStyle))
    backgroundStyle borderStyle noShadow.

(** Modelled from the spec: [pile.NewFlow] builds the single vertically
    stacked body out of the rows it is given, kept as given; it is code
    of gowid outside this package.  The spec is silent on a row without
    a widget.  In gowid the constructor calls through the widget of each
    row before it returns the pile, so a row that is a container widget
    around a nil widget makes that a call through nil, and the
    constructor panics: [New] on a nil content ends here. *)
Fixpoint pile_rows (rows : list (loc + WidgetTree)) : M unit :=
  match rows with
  | [] => ret tt
  | inl l :: rows' =>
      o ← load l;
      match o with
      | ObjContainerWidget (Some _) _ => pile_rows rows'
      | ObjContainerWidget None _ => panic NilDereference
      | _ => panic IllTyped
      end
  | inr _ :: rows' => pile_rows rows'
  end.

Definition pile_NewFlow (rows : list (loc + WidgetTree)) : M WidgetTree :=
  pile_rows rows;;
  ret (Pile rows).

(** [New(content, opts...)].  The closures of the default buttons capture
    the variable [res], assigned last; here its address is allocated
    before the body is built and filled in at the end, no closure running
    in between.  A nil [content] is wrapped like any other and panics in
    [pile.NewFlow], before there is a body or a dialog: nothing is
    returned, and the wrapper and the address kept for [res] are left
    behind, referenced by nothing. *)
Definition New (content : IWidget) (opts : list Options) : M loc :=
  let opt := match opts with o :: _ => o | [] => zeroOptions end in
  let buttonStyle :=
    default (MakePaletteEntry DefaultButtonText DefaultButton)
      (ButtonStyle opt) in
  let backgroundStyle :=
    default (MakePaletteEntry DefaultText DefaultBackground)
      (BackgroundStyle opt) in
  let borderStyle :=
    default (MakePaletteEntry DefaultButton DefaultBackground)
      (BackgroundStyle opt) in
  wrapper ← alloc (ObjContainerWidget content (RenderWithWeight 1));
  res ← alloc (ObjDialog zeroWidget);
  let colsW :=
    match opts with
    | o :: _ => imap (buttonColumn res backgroundStyle buttonStyle) (Buttons o)
    | [] => []
    end in
  dialogContent ← pile_NewFlow (dialogRows wrapper colsW borderStyle);
  d ← alloc (ObjTree
    (dialogFrame dialogContent backgroundStyle borderStyle (NoShadow opt)));
  setWidget res
    {| iwidget := Some d; options := opt;
       savedSubWidgetWidget := None; savedContainer := None;
       contentWrapper := Some wrapper; open := false;
       NoFunction := None; Callbacks := [] |};;
  ret res.

(** The click callbacks of the buttons of a widget tree, left to right. *)
Fixpoint clickTargets (t : WidgetTree) : list (list WidgetCallback) :=
  match t with
  | Text _ | Divider => []
  | ButtonW inner click => click :: clickTargets inner
  | Styled inner _ | StyledExt inner _ _ | HPadding inner _ _
  | Framed inner _ | Opaque inner | Shadow inner _ => clickTargets inner
  | Columns cols =>
      (fix go (l : list (WidgetTree * IWidgetDimension)) :=
         match l with
         | [] => []
         | (c, _) :: l' => clickTargets c ++ go l'
         end) cols
  | Pile rows =>
      (fix go (l : list (loc + WidgetTree)) :=
         match l with
         | [] => []
         | inl _ :: l' => go l'
         | inr r :: l' => clickTargets r ++ go l'
         end) rows
  end.

(** The rows of the pile at the core of a dialog body. *)
Fixpoint pileRows (t : WidgetTree) : option (list (loc + WidgetTree)) :=
  match t with
  | Pile rows => Some rows
  | Styled inner _ | StyledExt inner _ _ | HPadding inner _ _
  | Framed inner _ | Opaque inner | Shadow inner _ => pileRows inner
  | _ => None
  end.

(** ** Input routing and the maximizer *)

Section Dialog.

(** [gowid.UserInputIfSelectable]: the selectable-aware forwarding of an
    event to a widget, and the functions behind [gowid.QuitFn] and the
    caller's button actions; all three belong to the application. *)
Variable UserInputIfSelectable :
  IWidget -> Event -> IRenderSize -> Selector -> IApp -> M bool.
Variable externalChanged :
  WidgetChangedFunction -> IApp -> IWidget -> M unit.

(** [cb.Changed(app, widget)]. *)
Definition Changed (cb : WidgetCallback) (app : IApp) (widget : IWidget)
    : M unit :=
  match Fn cb with
  | CloseFn d => Widget_Close d app
  | f => externalChanged f app widget
  end.

Definition UserInput (w : loc) (ev : Event) (size : IRenderSize)
    (focus : Selector) (app : IApp) : M bool :=
  isOpen ← IsOpen w;
  if (isOpen : bool) then
    cancel ←
      (match ev with
       | EventKey key =>
           if (key =? KeyCtrlC) || (key =? KeyEsc)
           then EscapeCloses w
           else ret false
       | _ => ret false
       end);
    (if (cancel : bool) then
       Changed (GetNoFunction w) app (Some w)
     else
       sub ← SubWidget w;
       UserInputIfSelectable sub ev size focus app;;
       ret tt);;
    ret true
  else
    sub ← SubWidget w;
    UserInputIfSelectable sub ev size focus app.

Definition Widget_UserInput (w : loc) (ev : Event) (size : IRenderSize)
    (focus : Selector) (app : IApp) : M bool :=
  UserInput w ev size focus app.

End Dialog.

(** [Maximize] and [Unmaximize] return the maximizer they leave behind
    next to their result. *)
Definition Maximize (m : Maximizer) (w : loc) (app : IApp)
    : M (Maximizer * bool) :=
  if Maxed m then ret (m, false)
  else
    width ← Width w;
    height ← Height w;
    SetWidth w (RenderWithRatio 1%Q) app;;
    SetHeight w (RenderWithRatio 1%Q) app;;
    ret ({| Maxed := true; mWidth := width; mHeight := height |}, true).

Definition Unmaximize (m : Maximizer) (w : loc) (app : IApp)
    : M (Maximizer * bool) :=
  if negb (Maxed m) then ret (m, false)
  else
    SetWidth w (mWidth m) app;;
    SetHeight w (mHeight m) app;;
    ret ({| Maxed := false; mWidth := mWidth m; mHeight := mHeight m |}, true).

(** ** Predicates of the statements *)

(** [w] is a dialog whose content wrapper is in place, as [New] leaves it. *)
Definition dialogReady (w : loc) (s : World) : bool :=
  match heap s !! w with
  | Some (ObjDialog d) =>
      match contentWrapper d with
      | Some cw =>
          match heap s !! cw with
          | Some (ObjContainerWidget _ _) => true
          | _ => false
          end
      | None => false
      end
  | _ => false
  end.

(** How often the registry [key] of widget [w] has fired in a trace. *)
Definition firings (key : CallbackKey) (w : loc) (t : list Fired) : nat :=
  length (filter (fun f => fkey f = key ∧ ftarget f = w) t).

(** The dialog stored at [w], if any. *)
Definition widgetAt (w : loc) (s : World) : option Widget :=
  match heap s !! w with
  | Some (ObjDialog d) => Some d
  | _ => None
  end.

(** The buttons a call [New(content, opts...)] asks for. *)
Definition requestedButtons (opts : list Options) : list Button :=
  match opts with
  | o :: _ => Buttons o
  | [] => []
  end.

(** The click callback expected of button [i]: its explicit action, or
    the closure closing dialog [res]. *)
Definition expectedCallback (res : loc) (i : nat) (b : Button)
    : WidgetCallback :=
  {| Name := "cb-" +:+ pretty i; Fn := default (CloseFn res) (Action b) |}.

(** The size policy of the content wrapper of dialog [w]. *)
Definition contentSizing (w : loc) (s : World) : option IWidgetDimension :=
  match heap s !! w with
  | Some (ObjDialog d) =>
      match contentWrapper d with
      | Some cw =>
          match heap s !! cw with
          | Some (ObjContainerWidget _ D) => Some D
          | _ => None
          end
      | None => None
      end
  | _ => None
  end.

(** The cancel gesture of [UserInput]: a key event for Ctrl-C or Escape. *)
Definition cancelGesture (ev : Event) : bool :=
  match ev with
  | EventKey key => (key =? KeyCtrlC) || (key =? KeyEsc)
  | _ => false
  end.

(** The saved-reference invariant as the data model words it: open,
    saved container present and saved child present are equivalent. *)
Definition savedEquivalent (d : Widget) : Prop :=
  (open d = true ↔ savedContainer d ≠ None) ∧
  (savedContainer d ≠ None ↔ savedSubWidgetWidget d ≠ None).

(** The part of it the code keeps: an open dialog has both saved
    references, and the two are present together. *)
Definition savedWhenOpen (d : Widget) : Prop :=
  (open d = true ->
   savedContainer d ≠ None ∧ savedSubWidgetWidget d ≠ None) ∧
  (savedContainer d ≠ None ↔ savedSubWidgetWidget d ≠ None).

(** The worlds reached from [s] by opening (over a container whose child
    slot is occupied), closing and [SetOpen(false)] on dialog [w]. *)
Inductive reach (w : loc) (s : World) : World -> Prop :=
| reach_start : reach w s s
| reach_OpenExt s1 s2 c x width height app :
    reach w s s1 ->
    container_SubWidget c s1 = Ok (Some x) s1 ->
    OpenExt w c width height app s1 = Ok tt s2 ->
    reach w s s2
| reach_Open s1 s2 c x width app :
    reach w s s1 ->
    container_SubWidget c s1 = Ok (Some x) s1 ->
    Open w c width app s1 = Ok tt s2 ->
    reach w s s2
| reach_Close s1 s2 app :
    reach w s s1 ->
    Close w app s1 = Ok tt s2 ->
    reach w s s2
| reach_SetOpen_false s1 s2 app :
    reach w s s1 ->
    SetOpen w false app s1 = Ok tt s2 ->
    reach w s s2.

(** ** A small scene *)

(** A forwarding function for the examples: the body declines every
    event and changes nothing. *)
Definition declineInput (sub : IWidget) (ev : Event) (size : IRenderSize)
    (focus : Selector) (app : IApp) : M bool := ret false.

Definition ignoreChanged (f : WidgetChangedFunction) (app : IApp)
    (widget : IWidget) : M unit := ret tt.

Definition emptyWorld : World := {| heap := ∅; trace := [] |}.

(** An application holding a view, and a dialog with Ok and Cancel built
    over some content: addresses 1 (view), 2 (app), 3 (content), 5 (dialog). *)
Definition sceneSetup : M loc :=
  view ← alloc (ObjExternal 0);
  alloc (ObjComposite (Some view));;
  content ← alloc (ObjExternal 1);
  New (Some content)
    [ {| Buttons := OkCancel; NoShadow := false; NoEscapeClose := false;
         ButtonStyle := None; BackgroundStyle := None |} ].

Definition scene : World :=
  match sceneSetup emptyWorld with
  | Ok _ s => s
  | Panic _ s => s
  end.

(** The scene after [SetOpen(true)] on the never-opened dialog. *)
Definition sceneForcedOpen : World :=
  match SetOpen 5%positive true None scene with
  | Ok _ s => s
  | Panic _ s => s
  end.

(** The scene after [Open] of the dialog over the application. *)
Definition sceneOpened : World :=
  match Open 5%positive (Some 2%positive) RenderFixed None scene with
  | Ok _ s => s
  | Panic _ s => s
  end.

(** The same scene with a dialog that ignores the cancel gesture, opened. *)
Definition sceneSticky : World :=
  match
    (view ← alloc (ObjExternal 0);
     app ← alloc (ObjComposite (Some view));
     content ← alloc (ObjExternal 1);
     w ← New (Some content)
       [ {| Buttons := CloseOnly; NoShadow := true; NoEscapeClose := true;
            ButtonStyle := None; BackgroundStyle := None |} ];
     Open w (Some app) RenderFixed None) emptyWorld
  with
  | Ok _ s => s
  | Panic _ s => s
  end.

(** The scene after [Open] and then [Close]. *)
Definition sceneReclosed : World :=
  match Close 5%positive None sceneOpened with
  | Ok _ s => s
  | Panic _ s => s
  end.

(** An application whose view slot is empty, with a dialog opened over
    it: addresses 1 (app), 2 (content), 4 (dialog). *)
Definition sceneEmptyApp : World :=
  match
    (app ← alloc (ObjComposite None);
     content ← alloc (ObjExternal 1);
     w ← New (Some content) [];
     Open w (Some app) RenderFixed None) emptyWorld
  with
  | Ok _ s => s
  | Panic _ s => s
  end.

(** The dialog records of the scenes. *)
Definition sceneWidget : Widget :=
  default zeroWidget (widgetAt 5%positive scene).
Definition sceneOpenedWidget : Widget :=
  default zeroWidget (widgetAt 5%positive sceneOpened).
Definition sceneReclosedWidget : Widget :=
  default zeroWidget (widgetAt 5%positive sceneReclosed).
Definition sceneForcedOpenWidget : Widget :=
  default zeroWidget (widgetAt 5%positive sceneForcedOpen).
Definition sceneEmptyAppWidget : Widget :=
  default zeroWidget (widgetAt 4%positive sceneEmptyApp).
Definition sceneStickyWidget : Widget :=
  default zeroWidget (widgetAt 5%positive sceneSticky).

Definition sceneView : loc := 1%positive.
Definition sceneApp : loc := 2%positive.
Definition sceneDialog : loc := 5%positive.
Definition sceneContent : loc := 3%positive.

(** A maximizer that has not maximized anything. *)
Definition idleMaximizer : Maximizer :=
  {| Maxed := false; mWidth := NilDimension; mHeight := NilDimension |}.

(** The opened dialog of the scene is maximized, closed, and opened again
    over the application, 40 columns wide and as high as can be. *)
Definition sceneReopening : M Maximizer :=
  r ← Maximize idleMaximizer sceneDialog None;
  Close sceneDialog None;;
  OpenExt sceneDialog (Some sceneApp) (RenderWithUnits 40) RenderMax None;;
  ret (fst r).

(** The maximizer as the first [Maximize] left it, and the world after
    the second opening. *)
Definition sceneUsedMaximizer : Maximizer :=
  match sceneReopening sceneOpened with
  | Ok m _ => m
  | Panic _ _ => idleMaximizer
  end.

Definition sceneReopened : World :=
  match sceneReopening sceneOpened with
  | Ok _ s => s
  | Panic _ s => s
  end.

(** The world after [Unmaximize] with that maximizer on the reopened
    dialog. *)
Definition sceneUnmaximized : World :=
  match Unmaximize sceneUsedMaximizer sceneDialog None sceneReopened with
  | Ok _ s => s
  | Panic _ s => s
  end.

(** ** More scenes and sequences *)

(** [n] rounds of [Open] followed by [Close]. *)
Fixpoint openCloseTimes (n : nat) (w : loc) (c : ISettableComposite)
    (width : IWidgetDimension) (app : IApp) : M unit :=
  match n with
  | O => ret tt
  | S n' =>
      Open w c width app;;
      Close w app;;
      openCloseTimes n' w c width app
  end.

(** The options of the scene's dialog. *)
Definition sceneOptions : Options :=
  {| Buttons := OkCancel; NoShadow := false; NoEscapeClose := false;
     ButtonStyle := None; BackgroundStyle := None |}.

(** A view, an application holding it, and a zero-value dialog that did
    not come from [New]: addresses 1, 2 and 3. *)
Definition sceneBare : World :=
  match
    (view ← alloc (ObjExternal 0);
     alloc (ObjComposite (Some view));;
     alloc (ObjDialog zeroWidget)) emptyWorld
  with
  | Ok _ s => s
  | Panic _ s => s
  end.

(** Whether an object is an [overlay.Widget]. *)
Definition isOverlay (o : Object) : bool :=
  match o with
  | ObjOverlay _ _ _ _ _ _ => true
  | _ => false
  end.

(** Feeding a list of events to the dialog, one [UserInput] call each,
    collecting the answers. *)
Fixpoint UserInputs
    (UserInputIfSelectable :
       IWidget -> Event -> IRenderSize -> Selector -> IApp -> M bool)
    (externalChanged : WidgetChangedFunction -> IApp -> IWidget -> M unit)
    (w : loc) (evs : list Event) (size : IRenderSize) (focus : Selector)
    (app : IApp) : M (list bool) :=
  match evs with
  | [] => ret []
  | ev :: evs' =>
      b ← UserInput UserInputIfSelectable externalChanged w ev size focus app;
      bs ← UserInputs UserInputIfSelectable externalChanged w evs' size focus
             app;
      ret (b :: bs)
  end.

(** * Running the monad *)

Lemma bind_Ok {A B} (m : M A) (k : A -> M B) s a s' :
  m s = Ok a s' -> (m ≫= k) s = k a s'.
Proof. intros H. unfold mbind, M_bind, bind. by rewrite H. Qed.

Lemma bind_Ok_inv {A B} (m : M A) (k : A -> M B) s b s2 :
  (m ≫= k) s = Ok b s2 -> ∃ a s1, m s = Ok a s1 ∧ k a s1 = Ok b s2.
Proof.
  unfold mbind, M_bind, bind. destruct (m s) as [a s1|]; [eauto | done].
Qed.

Lemma fresh_heap_ne (h : gmap loc Object) l o :
  h !! l = Some o -> fresh (dom h) ≠ l.
Proof.
  intros H E. apply (is_fresh (dom h)). rewrite E.
  apply elem_of_dom. eauto.
Qed.

(** ** The accessors, one equation each *)

Section Accessors.
Variables (s : World) (w : loc) (d : Widget).
Hypothesis Hw : heap s !! w = Some (ObjDialog d).

Lemma getWidget_run : getWidget w s = Ok d s.
Proof. unfold getWidget, load, mbind, M_bind, bind. by rewrite Hw. Qed.

Lemma SubWidget_run : SubWidget w s = Ok (iwidget d) s.
Proof. unfold SubWidget. by rewrite (bind_Ok _ _ _ _ _ getWidget_run). Qed.

Lemma IsOpen_run : IsOpen w s = Ok (open d) s.
Proof. unfold IsOpen. by rewrite (bind_Ok _ _ _ _ _ getWidget_run). Qed.

Lemma EscapeCloses_run :
  EscapeCloses w s = Ok (negb (NoEscapeClose (options d))) s.
Proof. unfold EscapeCloses. by rewrite (bind_Ok _ _ _ _ _ getWidget_run). Qed.

Lemma SavedSubWidget_run : SavedSubWidget w s = Ok (savedSubWidgetWidget d) s.
Proof. unfold SavedSubWidget. by rewrite (bind_Ok _ _ _ _ _ getWidget_run). Qed.

Lemma SavedContainer_run : SavedContainer w s = Ok (savedContainer d) s.
Proof. unfold SavedContainer. by rewrite (bind_Ok _ _ _ _ _ getWidget_run). Qed.

Lemma SetSubWidget_run inner app :
  SetSubWidget w inner app s =
  Ok tt {| heap := <[w := ObjDialog (set_iwidget inner d)]> (heap s);
           trace := trace s |}.
Proof. unfold SetSubWidget. by rewrite (bind_Ok _ _ _ _ _ getWidget_run). Qed.

Lemma SetOpen_run b app :
  SetOpen w b app s =
  Ok tt {| heap := <[w := ObjDialog (set_open b d)]> (heap s);
           trace :=
             if eqb (open d) b then trace s
             else trace s ++
                  [ {| fkey := OpenCloseCB; ftarget := w;
                       fran := (filter (fun kv => kv.1 = OpenCloseCB)
                                  (Callbacks d)).*2 |} ] |}.
Proof.
  unfold SetOpen. rewrite (bind_Ok _ _ _ _ _ getWidget_run).
  by destruct (eqb (open d) b).
Qed.

Lemma SetSavedSubWidget_run x app :
  SetSavedSubWidget w x app s =
  Ok tt {| heap := <[w := ObjDialog (set_savedSubWidgetWidget x d)]> (heap s);
           trace := trace s ++
                  [ {| fkey := SavedSubWidgetCB; ftarget := w;
                       fran := (filter (fun kv => kv.1 = SavedSubWidgetCB)
                                  (Callbacks d)).*2 |} ] |}.
Proof.
  unfold SetSavedSubWidget. by rewrite (bind_Ok _ _ _ _ _ getWidget_run).
Qed.


Lemma SetContentWidth_run cw inner D D' app :
  contentWrapper d = Some cw ->
  heap s !! cw = Some (ObjContainerWidget inner D) ->
  SetContentWidth w D' app s =
  Ok tt {| heap := <[cw := ObjContainerWidget inner D']> (heap s);
           trace := trace s |}.
Proof.
  intros Hcw Hl. unfold SetContentWidth.
  rewrite (bind_Ok _ _ _ _ _ getWidget_run), Hcw.
  unfold load, mbind, M_bind, bind. by rewrite Hl.
Qed.
End Accessors.

(** ** Symbolic execution over the store *)

Ltac munfold :=
  cbv beta iota zeta delta
    [Open OpenExt Close Widget_Open Widget_Close OpenGlobally
     SetOpen IsOpen SavedSubWidget SetSavedSubWidget SavedContainer
     SetSavedContainer SetContentWidth SubWidget SetSubWidget
     container_SubWidget container_SetSubWidget liveOverlay Width Height
     SetWidth SetHeight overlay_New overlay_Width overlay_Height
     overlay_SetWidth overlay_SetHeight assertOverlay EscapeCloses
     RunWidgetCallbacks getWidget setWidget load store alloc log
     mbind M_bind bind mret M_ret ret panic heap trace
     set_iwidget set_savedSubWidgetWidget set_savedContainer set_open
     set_Callbacks Maximize Unmaximize Maxed mWidth mHeight
     iwidget options savedSubWidgetWidget savedContainer contentWrapper
     open NoFunction Callbacks negb eqb].

Ltac solve_ne :=
  solve [ assumption | congruence
        | eapply fresh_heap_ne; eassumption
        | apply not_eq_sym; eapply fresh_heap_ne; eassumption ].

Ltac heap_lookup :=
  match goal with
  | |- context [ <[?l := ?o]> ?h !! ?l ] => rewrite (lookup_insert_eq h l o)
  | |- context [ <[?l := ?o]> ?h !! ?l' ] =>
      rewrite (lookup_insert_ne h l l' o) by solve_ne
  | H : ?h !! ?l = Some _ |- context [ ?h !! ?l ] => rewrite H
  end.

Ltac mrun := munfold; repeat (heap_lookup; munfold).

Lemma dialogReady_inv w s :
  dialogReady w s = true ->
  ∃ d cw inner D,
    heap s !! w = Some (ObjDialog d) ∧ contentWrapper d = Some cw ∧
    heap s !! cw = Some (ObjContainerWidget inner D).
Proof.
  unfold dialogReady. intros H.
  destruct (heap s !! w) as [[| | | | |d]|] eqn:Ew; try done.
  destruct (contentWrapper d) as [cw|] eqn:Ec; try done.
  destruct (heap s !! cw) as [[| | |inner D| |]|] eqn:E; try done.
  by exists d, cw, inner, D.
Qed.

Lemma container_SubWidget_inv c x s s' :
  container_SubWidget c s = Ok x s' ->
  s' = s ∧ ∃ l, c = Some l ∧
    (heap s !! l = Some (ObjComposite x) ∨
     ∃ dc, heap s !! l = Some (ObjDialog dc) ∧ iwidget dc = x).
Proof.
  destruct c as [l|]; [|done].
  unfold container_SubWidget, load, mbind, M_bind, bind.
  destruct (heap s !! l) as [[| | | | |dc]|] eqn:E; try done.
  - simpl. intros H. injection H as -> ->. split; [done|]. exists l. eauto.
  - rewrite (SubWidget_run _ _ _ E). intros H. injection H as <- <-.
    split; [done|]. exists l. eauto.
Qed.

(** The shapes of a ready dialog facing a container: a plain composite,
    another dialog, or the dialog itself. *)
Ltac scene_cases Hready Hc :=
  let d := fresh "d" in let dc := fresh "dc" in
  let Hcw := fresh "Hcw" in let cw' := fresh "cw'" in
  lazymatch type of Hready with
  | dialogReady _ ?s = true =>
      apply dialogReady_inv in Hready
        as (d & ?cw & ?inner & ?D & ?Hw & Hcw & ?Hcw');
      apply container_SubWidget_inv in Hc
        as (_ & ?l & -> & [?Hl | (dc & ?Hl & <-)]);
      destruct s as [?h ?tr]
  end;
  cbn [heap trace] in *;
  destruct d as [?iw ?opts ?ss ?sc cw' ?ow ?nf ?cbs]; simpl in Hcw; subst cw';
  [ | match goal with
      | Hw : ?h !! ?w = Some (ObjDialog _), Hl : ?h !! ?l = Some (ObjDialog dc)
        |- _ =>
          destruct (decide (l = w)) as [->|?];
          [ rewrite Hw in Hl; injection Hl as <- | destruct dc ]
      end ];
  repeat match goal with
    | H1 : ?h !! ?a = Some ?o1, H2 : ?h !! ?b = Some ?o2 |- _ =>
        lazymatch goal with
        | _ : a ≠ b |- _ => fail
        | _ => assert (a ≠ b) by congruence
        end
    end.

(** * The splice protocol *)

(** C1: for every container [c] whose child slot holds [x], [Open] on a
    ready dialog followed by [Close] succeeds, leaves the very reference
    [x] in the child slot of [c], and leaves the dialog closed. *)
Theorem Open_Close_restores s w c x width app :
  dialogReady w s = true ->
  container_SubWidget c s = Ok x s ->
  ∃ s', (Open w c width app;; Close w app) s = Ok tt s' ∧
        container_SubWidget c s' = Ok x s' ∧ IsOpen w s' = Ok false s'.
Proof.
  intros Hready Hc. scene_cases Hready Hc.
  all: destruct (IRenderFixed width) eqn:Hf; destruct ow.
  all: eexists; split; [mrun; rewrite Hf; mrun; reflexivity|].
  all: split; mrun; reflexivity.
Qed.

Lemma Open_Close_restores_witness :
  dialogReady sceneDialog scene = true ∧
  container_SubWidget (Some sceneApp) scene = Ok (Some sceneView) scene ∧
  ∃ s', (Open sceneDialog (Some sceneApp) RenderFixed (Some sceneApp);;
         Close sceneDialog (Some sceneApp)) scene = Ok tt s' ∧
        container_SubWidget (Some sceneApp) s' = Ok (Some sceneView) s' ∧
        IsOpen sceneDialog s' = Ok false s'.
Proof.
  split; [vm_compute; reflexivity|]. split; [vm_compute; reflexivity|].
  apply (Open_Close_restores scene sceneDialog (Some sceneApp)
           (Some sceneView) RenderFixed (Some sceneApp));
    vm_compute; reflexivity.
Defined.

(** C10: after one [Open] followed by [Close] the saved container and the
    saved child still hold the values of that [Open], and a second [Close]
    succeeds and leaves the whole world as it was: the same child is
    written into the same slot and no registry fires. *)
Theorem second_Close_idempotent s w c x width app app' :
  dialogReady w s = true ->
  container_SubWidget c s = Ok x s ->
  ∃ s1, (Open w c width app;; Close w app) s = Ok tt s1 ∧
        SavedContainer w s1 = Ok c s1 ∧
        SavedSubWidget w s1 = Ok x s1 ∧
        container_SubWidget c s1 = Ok x s1 ∧
        Close w app' s1 = Ok tt s1.
Proof.
  intros Hready Hc. scene_cases Hready Hc.
  all: destruct (IRenderFixed width) eqn:Hf; destruct ow.
  all: eexists; split; [mrun; rewrite Hf; mrun; reflexivity|].
  all: split; [mrun; reflexivity|].
  all: split; [mrun; reflexivity|].
  all: split; [mrun; reflexivity|].
  all: mrun; do 2 f_equal.
  all: repeat (rewrite insert_id; [|mrun; reflexivity]); reflexivity.
Qed.

Lemma second_Close_idempotent_witness :
  dialogReady sceneDialog scene = true ∧
  container_SubWidget (Some sceneApp) scene = Ok (Some sceneView) scene ∧
  ∃ s1, (Open sceneDialog (Some sceneApp) RenderFlow None;;
         Close sceneDialog None) scene = Ok tt s1 ∧
        SavedContainer sceneDialog s1 = Ok (Some sceneApp) s1 ∧
        SavedSubWidget sceneDialog s1 = Ok (Some sceneView) s1 ∧
        container_SubWidget (Some sceneApp) s1 = Ok (Some sceneView) s1 ∧
        Close sceneDialog None s1 = Ok tt s1.
Proof.
  split; [vm_compute; reflexivity|]. split; [vm_compute; reflexivity|].
  apply (second_Close_idempotent scene sceneDialog (Some sceneApp)
           (Some sceneView) RenderFlow None None);
    vm_compute; reflexivity.
Defined.

(** C8: [OpenExt] on a ready dialog succeeds and leaves the content wrapper
    sized [RenderFixed] exactly when the width policy is the fixed one
    (the only [IRenderFixed]), and [RenderWithWeight 1] otherwise; [Open]
    is [OpenExt] with the flow height policy. *)
Theorem OpenExt_content_sizing s w c x width height app :
  dialogReady w s = true ->
  container_SubWidget c s = Ok x s ->
  (∃ s', OpenExt w c width height app s = Ok tt s' ∧
         contentSizing w s' =
           Some (if IRenderFixed width then RenderFixed
                 else RenderWithWeight 1) ∧
         (contentSizing w s' = Some RenderFixed ↔ width = RenderFixed)) ∧
  (IRenderFixed width = true ↔ width = RenderFixed) ∧
  Open w c width app = OpenExt w c width RenderFlow app.
Proof.
  intros Hready Hc. split; [|split; [by destruct width|reflexivity]].
  assert (Hiff : ∀ D, Some (if IRenderFixed width then RenderFixed
                           else RenderWithWeight 1) = D ->
                 (D = Some RenderFixed ↔ width = RenderFixed)).
  { intros D <-. destruct width; simpl; split; congruence. }
  scene_cases Hready Hc.
  all: destruct (IRenderFixed width) eqn:Hf; destruct ow.
  all: eexists; split; [mrun; rewrite Hf; mrun; reflexivity|].
  all: assert (∀ A B : Prop, A -> (A -> B) -> A ∧ B) as Hcut by tauto.
  all: apply Hcut; [unfold contentSizing; mrun; reflexivity|].
  all: intros E; apply Hiff; symmetry; exact E.
Qed.

Lemma OpenExt_content_sizing_witness :
  dialogReady sceneDialog scene = true ∧
  container_SubWidget (Some sceneApp) scene = Ok (Some sceneView) scene ∧
  ∃ s', OpenExt sceneDialog (Some sceneApp) RenderFixed RenderMax None scene
          = Ok tt s' ∧
        contentSizing sceneDialog s' = Some RenderFixed.
Proof.
  split; [vm_compute; reflexivity|]. split; [vm_compute; reflexivity|].
  destruct (OpenExt_content_sizing scene sceneDialog (Some sceneApp)
              (Some sceneView) RenderFixed RenderMax None)
    as [(s' & Hrun & Hsz & _) _]; [vm_compute; reflexivity ..|].
  exists s'. split; [exact Hrun | exact Hsz].
Defined.

(** * The open/close registry *)

Lemma firings_snoc key w t k' w' names :
  firings key w (t ++ [ {| fkey := k'; ftarget := w'; fran := names |} ]) =
  (firings key w t + (if decide (k' = key ∧ w' = w) then 1 else 0))%nat.
Proof.
  unfold firings. rewrite filter_app, length_app. f_equal.
  rewrite filter_cons, filter_nil. simpl. by case_decide.
Qed.

Lemma IsOpen_inv w s b s' :
  IsOpen w s = Ok b s' ->
  s' = s ∧ ∃ d, heap s !! w = Some (ObjDialog d) ∧ open d = b.
Proof.
  unfold IsOpen, getWidget, load, mbind, M_bind, bind.
  destruct (heap s !! w) as [[| | | | |d]|] eqn:E; try done.
  simpl. intros H. injection H as <- <-. eauto.
Qed.

Ltac count_firings :=
  simpl; rewrite ?firings_snoc;
  repeat match goal with
    | |- context [decide ?P] =>
        let Hn := fresh in
        destruct (decide P) as [[? ?]|Hn];
        [ try congruence | try (exfalso; apply Hn; split; reflexivity) ]
    end;
  lia.

(** C5: [SetOpen] fires the open/close registry exactly when the stored
    value changes.  So, on a closed dialog, [Open] followed by [Close]
    fires it twice, and [SetOpen(true)] twice in a row fires it once. *)
Theorem SetOpen_fires_on_change s w c x width app :
  dialogReady w s = true ->
  container_SubWidget c s = Ok x s ->
  (∀ prev b, IsOpen w s = Ok prev s ->
     ∃ s', SetOpen w b app s = Ok tt s' ∧ IsOpen w s' = Ok b s' ∧
           firings OpenCloseCB w (trace s') =
           (firings OpenCloseCB w (trace s) +
            (if eqb prev b then 0 else 1))%nat) ∧
  (IsOpen w s = Ok false s ->
     (∃ s', (Open w c width app;; Close w app) s = Ok tt s' ∧
            firings OpenCloseCB w (trace s') =
            (firings OpenCloseCB w (trace s) + 2)%nat) ∧
     (∃ s', (SetOpen w true app;; SetOpen w true app) s = Ok tt s' ∧
            firings OpenCloseCB w (trace s') =
            (firings OpenCloseCB w (trace s) + 1)%nat)).
Proof.
  intros Hready Hc. split.
  - intros prev b Hopen.
    apply IsOpen_inv in Hopen as (_ & d & Hw & <-).
    eexists. split; [apply (SetOpen_run _ _ _ Hw)|]. split.
    + destruct s as [h tr]. mrun. reflexivity.
    + simpl. destruct (eqb (open d) b); [lia|]. count_firings.
  - intros Hopen. apply IsOpen_inv in Hopen as (_ & d' & Hw' & Hclosed).
    split.
    + scene_cases Hready Hc.
      all: rewrite Hw in Hw'; injection Hw' as <-; simpl in Hclosed; subst.
      all: destruct (IRenderFixed width) eqn:Hf.
      all: eexists; split; [mrun; rewrite Hf; mrun; reflexivity|].
      all: count_firings.
    + scene_cases Hready Hc.
      all: rewrite Hw in Hw'; injection Hw' as <-; simpl in Hclosed; subst.
      all: eexists; split; [mrun; reflexivity|].
      all: count_firings.
Qed.

Lemma SetOpen_fires_on_change_witness :
  dialogReady sceneDialog scene = true ∧
  container_SubWidget (Some sceneApp) scene = Ok (Some sceneView) scene ∧
  IsOpen sceneDialog scene = Ok false scene ∧
  (∃ s', (Open sceneDialog (Some sceneApp) RenderFlow None;;
          Close sceneDialog None) scene = Ok tt s' ∧
         firings OpenCloseCB sceneDialog (trace s') = 2%nat) ∧
  (∃ s', (SetOpen sceneDialog true None;; SetOpen sceneDialog true None) scene
           = Ok tt s' ∧
         firings OpenCloseCB sceneDialog (trace s') = 1%nat).
Proof.
  split; [vm_compute; reflexivity|]. split; [vm_compute; reflexivity|].
  split; [vm_compute; reflexivity|].
  destruct (SetOpen_fires_on_change scene sceneDialog (Some sceneApp)
              (Some sceneView) RenderFlow None) as [_ H];
    [vm_compute; reflexivity ..|].
  apply H. vm_compute; reflexivity.
Defined.

(** * Closing without a saved container *)

Lemma getWidget_inv w s d s' :
  getWidget w s = Ok d s' -> s' = s ∧ heap s !! w = Some (ObjDialog d).
Proof.
  unfold getWidget, load, mbind, M_bind, bind.
  destruct (heap s !! w) as [[| | | | |d']|] eqn:E; try done.
  simpl. intros H. by injection H as <- <-.
Qed.

Lemma SavedContainer_inv w s c s' :
  SavedContainer w s = Ok c s' ->
  s' = s ∧ ∃ d, heap s !! w = Some (ObjDialog d) ∧ savedContainer d = c.
Proof.
  unfold SavedContainer. intros H.
  apply bind_Ok_inv in H as (d & s1 & Hd & Hret).
  apply getWidget_inv in Hd as [-> Hd]. injection Hret as <- <-. eauto.
Qed.

(** C9, the claim as stated fails: after [SetOpen(true)] on a dialog
    fresh from [New], [IsOpen] is true, the saved container is nil, and
    [Close] panics on the nil container. *)
Lemma Close_panics_though_open :
  sceneSetup emptyWorld = Ok sceneDialog scene ∧
  SetOpen sceneDialog true None scene = Ok tt sceneForcedOpen ∧
  IsOpen sceneDialog sceneForcedOpen = Ok true sceneForcedOpen ∧
  SavedContainer sceneDialog sceneForcedOpen = Ok None sceneForcedOpen ∧
  Close sceneDialog None sceneForcedOpen = Panic NilDereference sceneForcedOpen.
Proof. repeat split; vm_compute; reflexivity. Qed.

(** C9, amended: [Close] on a dialog whose saved container is nil panics
    with a nil dereference before anything is written or fired (the world
    is the one it started from); after [OpenExt] the dialog is open, its
    saved container is the non-nil container given, and [Close] succeeds. *)
Theorem Close_nil_container s0 s w w0 c x width height app :
  SavedContainer w0 s0 = Ok None s0 ->
  dialogReady w s = true ->
  container_SubWidget c s = Ok x s ->
  Close w0 app s0 = Panic NilDereference s0 ∧
  ∃ s1 s2, OpenExt w c width height app s = Ok tt s1 ∧
           IsOpen w s1 = Ok true s1 ∧
           SavedContainer w s1 = Ok c s1 ∧ c ≠ None ∧
           Close w app s1 = Ok tt s2.
Proof.
  intros Hnil Hready Hc. split.
  - apply SavedContainer_inv in Hnil as (_ & d & Hw & Hsc).
    unfold Close.
    rewrite (bind_Ok _ _ _ _ _ (SavedContainer_run _ _ _ Hw)).
    rewrite (bind_Ok _ _ _ _ _ (SavedSubWidget_run _ _ _ Hw)).
    by rewrite Hsc.
  - clear Hnil. scene_cases Hready Hc.
    all: destruct (IRenderFixed width) eqn:Hf; destruct ow.
    all: do 2 eexists; split; [mrun; rewrite Hf; mrun; reflexivity|].
    all: split; [mrun; reflexivity|].
    all: split; [mrun; reflexivity|].
    all: split; [done|].
    all: mrun; reflexivity.
Qed.

Lemma Close_nil_container_witness :
  SavedContainer sceneDialog scene = Ok None scene ∧
  dialogReady sceneDialog scene = true ∧
  container_SubWidget (Some sceneApp) scene = Ok (Some sceneView) scene ∧
  Close sceneDialog None scene = Panic NilDereference scene ∧
  ∃ s1 s2, OpenExt sceneDialog (Some sceneApp) RenderFixed RenderFlow None
             scene = Ok tt s1 ∧
           IsOpen sceneDialog s1 = Ok true s1 ∧
           SavedContainer sceneDialog s1 = Ok (Some sceneApp) s1 ∧
           Some sceneApp ≠ None ∧
           Close sceneDialog None s1 = Ok tt s2.
Proof.
  split; [vm_compute; reflexivity|]. split; [vm_compute; reflexivity|].
  split; [vm_compute; reflexivity|].
  apply (Close_nil_container scene scene sceneDialog sceneDialog
           (Some sceneApp) (Some sceneView) RenderFixed RenderFlow None);
    vm_compute; reflexivity.
Defined.

(** * Input routing *)

Section Routing.

Variable UserInputIfSelectable :
  IWidget -> Event -> IRenderSize -> Selector -> IApp -> M bool.
Variable externalChanged :
  WidgetChangedFunction -> IApp -> IWidget -> M unit.

Local Abbreviation UserInput' :=
  (UserInput UserInputIfSelectable externalChanged).

Lemma widgetAt_lookup w s d :
  widgetAt w s = Some d -> heap s !! w = Some (ObjDialog d).
Proof.
  unfold widgetAt. destruct (heap s !! w) as [[| | | | |d']|]; congruence.
Qed.

Lemma UserInput_open s w d ev size focus app :
  heap s !! w = Some (ObjDialog d) ->
  open d = true ->
  UserInput' w ev size focus app s =
  ((if cancelGesture ev && negb (NoEscapeClose (options d))
    then Close w app
    else UserInputIfSelectable (iwidget d) ev size focus app;; ret tt);;
   ret true) s.
Proof.
  intros Hw Hopen.
  pose proof (IsOpen_run _ _ _ Hw) as Hio.
  pose proof (SubWidget_run _ _ _ Hw) as Hsub.
  pose proof (EscapeCloses_run _ _ _ Hw) as Hesc.
  unfold UserInput, cancelGesture, mbind, M_bind, bind, mret, M_ret, ret.
  rewrite Hio, Hopen.
  destruct ev as [key| |]; simpl; rewrite ?Hsub; try reflexivity.
  destruct ((key =? KeyCtrlC) || (key =? KeyEsc)); simpl.
  - rewrite Hesc. destruct (negb (NoEscapeClose (options d))); simpl.
    + reflexivity.
    + by rewrite Hsub.
  - by rewrite Hsub.
Qed.

Lemma UserInput_closed s w d ev size focus app :
  heap s !! w = Some (ObjDialog d) ->
  open d = false ->
  UserInput' w ev size focus app s =
  UserInputIfSelectable (iwidget d) ev size focus app s.
Proof.
  intros Hw Hopen. unfold UserInput.
  rewrite (bind_Ok _ _ _ _ _ (IsOpen_run _ _ _ Hw)), Hopen.
  by rewrite (bind_Ok _ _ _ _ _ (SubWidget_run _ _ _ Hw)).
Qed.

(** C3: while the dialog is open, [UserInput] never answers false: an
    event forwarded to the body is reported handled whatever the body
    answers, and a cancel gesture is handled once the close action
    returns; while closed, [UserInput] is the selectable-aware forwarding
    to the body, result and effects alike. *)
Theorem UserInput_handled_while_open s w d ev size focus app :
  widgetAt w s = Some d ->
  (open d = true ->
     (∀ r s', UserInput' w ev size focus app s = Ok r s' -> r = true) ∧
     (cancelGesture ev && negb (NoEscapeClose (options d)) = false ->
        ∀ b s',
          UserInputIfSelectable (iwidget d) ev size focus app s = Ok b s' ->
          UserInput' w ev size focus app s = Ok true s') ∧
     (cancelGesture ev && negb (NoEscapeClose (options d)) = true ->
        ∀ s', Close w app s = Ok tt s' ->
              UserInput' w ev size focus app s = Ok true s')) ∧
  (open d = false ->
     UserInput' w ev size focus app s =
     UserInputIfSelectable (iwidget d) ev size focus app s).
Proof.
  intros Hw%widgetAt_lookup. split.
  - intros Hopen. rewrite (UserInput_open _ _ _ _ _ _ _ Hw Hopen).
    split; [|split].
    + intros r s' H. apply bind_Ok_inv in H as (? & ? & _ & H).
      by injection H as <- _.
    + intros -> b s' Hb.
      rewrite (bind_Ok _ _ _ tt s'); [done|].
      by rewrite (bind_Ok _ _ _ _ _ Hb).
    + intros -> s' Hclose. by rewrite (bind_Ok _ _ _ _ _ Hclose).
  - intros Hclosed. by apply UserInput_closed.
Qed.

(** C4: on an open dialog, Ctrl-C or Escape with [NoEscapeClose] unset
    runs the no-callback, which is [Close], and the body sees nothing;
    with [NoEscapeClose] set the event goes to the body and the dialog
    code closes nothing, so the dialog is open for as long as the body
    leaves it alone.  [EscapeCloses] is the negation of the option.
    After [Open] over a container holding [x], the gesture puts [x] back
    and leaves the dialog closed. *)
Theorem UserInput_cancel_gesture s w d key size focus app s0 d0 c x width :
  widgetAt w s = Some d ->
  open d = true ->
  key = KeyCtrlC ∨ key = KeyEsc ->
  widgetAt w s0 = Some d0 ->
  NoEscapeClose (options d0) = false ->
  dialogReady w s0 = true ->
  container_SubWidget c s0 = Ok x s0 ->
  EscapeCloses w s = Ok (negb (NoEscapeClose (options d))) s ∧
  (NoEscapeClose (options d) = false ->
     UserInput' w (EventKey key) size focus app s =
       (Changed externalChanged (GetNoFunction w) app (Some w);; ret true) s ∧
     Changed externalChanged (GetNoFunction w) app (Some w) = Close w app) ∧
  (NoEscapeClose (options d) = true ->
     UserInput' w (EventKey key) size focus app s =
       (UserInputIfSelectable (iwidget d) (EventKey key) size focus app;;
        ret true) s ∧
     ∀ b s',
       UserInputIfSelectable (iwidget d) (EventKey key) size focus app s
         = Ok b s' ->
       UserInput' w (EventKey key) size focus app s = Ok true s' ∧
       (widgetAt w s' = Some d -> IsOpen w s' = Ok true s')) ∧
  (∃ s', (Open w c width app;;
          UserInput' w (EventKey key) size focus app) s0 = Ok true s' ∧
         container_SubWidget c s' = Ok x s' ∧ IsOpen w s' = Ok false s').
Proof.
  intros Hw%widgetAt_lookup Hopen Hkey Hw0%widgetAt_lookup Hnec Hready Hc.
  assert (Hgesture : cancelGesture (EventKey key) = true).
  { by destruct Hkey as [-> | ->]. }
  split; [by apply EscapeCloses_run|]. split; [|split].
  - intros Hnec'. split; [|reflexivity].
    rewrite (UserInput_open _ _ _ _ _ _ _ Hw Hopen).
    by rewrite Hgesture, Hnec'.
  - intros Hnec'.
    assert (Hrun : UserInput' w (EventKey key) size focus app s =
      (UserInputIfSelectable (iwidget d) (EventKey key) size focus app;;
       ret true) s).
    { rewrite (UserInput_open _ _ _ _ _ _ _ Hw Hopen).
      rewrite Hgesture, Hnec'. simpl.
      unfold mbind, M_bind, bind.
      by destruct (UserInputIfSelectable _ _ _ _ _ s). }
    split; [exact Hrun|]. intros b s' Hb. rewrite Hrun. split.
    + by rewrite (bind_Ok _ _ _ _ _ Hb).
    + intros Hw'%widgetAt_lookup. rewrite (IsOpen_run _ _ _ Hw').
      by rewrite Hopen.
  - clear dependent s. scene_cases Hready Hc.
    all: rewrite Hw in Hw0; injection Hw0 as <-; simpl in Hnec.
    all: destruct (IRenderFixed width) eqn:Hf; destruct ow.
    all: eexists; split;
      [ erewrite bind_Ok by (mrun; rewrite Hf; mrun; reflexivity);
        erewrite UserInput_open by (simpl; mrun; reflexivity);
        rewrite Hgesture; simpl; rewrite Hnec; simpl;
        erewrite bind_Ok by (mrun; reflexivity); reflexivity |].
    all: split; mrun; reflexivity.
Qed.

End Routing.

Lemma UserInput_handled_while_open_witness :
  widgetAt sceneDialog sceneOpened = Some sceneOpenedWidget ∧
  open sceneOpenedWidget = true ∧
  declineInput (iwidget sceneOpenedWidget) (EventKey 13) SizeFixed
    {| Focus := true |} None sceneOpened = Ok false sceneOpened ∧
  UserInput declineInput ignoreChanged sceneDialog (EventKey 13) SizeFixed
    {| Focus := true |} None sceneOpened = Ok true sceneOpened.
Proof.
  assert (Hopen : open sceneOpenedWidget = true) by (vm_compute; reflexivity).
  split; [vm_compute; reflexivity|]. split; [exact Hopen|].
  split; [reflexivity|].
  destruct (UserInput_handled_while_open declineInput ignoreChanged
              sceneOpened sceneDialog sceneOpenedWidget (EventKey 13)
              SizeFixed {| Focus := true |} None) as [H _];
    [vm_compute; reflexivity|].
  destruct (H Hopen) as (_ & Hfwd & _).
  apply (Hfwd ltac:(vm_compute; reflexivity) false). reflexivity.
Defined.

Lemma UserInput_cancel_gesture_witness :
  widgetAt sceneDialog sceneOpened = Some sceneOpenedWidget ∧
  open sceneOpenedWidget = true ∧
  (KeyEsc = KeyCtrlC ∨ KeyEsc = KeyEsc) ∧
  widgetAt sceneDialog scene = Some sceneWidget ∧
  NoEscapeClose (options sceneWidget) = false ∧
  dialogReady sceneDialog scene = true ∧
  container_SubWidget (Some sceneApp) scene = Ok (Some sceneView) scene ∧
  EscapeCloses sceneDialog sceneOpened = Ok true sceneOpened ∧
  ∃ s', (Open sceneDialog (Some sceneApp) RenderFixed None;;
         UserInput declineInput ignoreChanged sceneDialog (EventKey KeyEsc)
           SizeFixed {| Focus := true |} None) scene = Ok true s' ∧
        container_SubWidget (Some sceneApp) s' = Ok (Some sceneView) s' ∧
        IsOpen sceneDialog s' = Ok false s'.
Proof.
  assert (Hopen : open sceneOpenedWidget = true) by (vm_compute; reflexivity).
  assert (Hnec : NoEscapeClose (options sceneWidget) = false)
    by (vm_compute; reflexivity).
  split; [vm_compute; reflexivity|]. split; [exact Hopen|].
  split; [right; reflexivity|]. split; [vm_compute; reflexivity|].
  split; [exact Hnec|]. split; [vm_compute; reflexivity|].
  split; [vm_compute; reflexivity|].
  destruct (UserInput_cancel_gesture declineInput ignoreChanged
              sceneOpened sceneDialog sceneOpenedWidget KeyEsc SizeFixed
              {| Focus := true |} None scene sceneWidget (Some sceneApp)
              (Some sceneView) RenderFixed)
    as (Hesc & _ & _ & Hrestore);
    [ vm_compute; reflexivity | exact Hopen | right; reflexivity
    | vm_compute; reflexivity | exact Hnec | vm_compute; reflexivity
    | vm_compute; reflexivity | ].
  split; [exact Hesc | exact Hrestore].
Defined.

(** With [NoEscapeClose] set, Escape on the open dialog is answered
    "handled" and the dialog is still open. *)
Example sticky_dialog_stays_open :
  NoEscapeClose (options sceneStickyWidget) = true ∧
  IsOpen sceneDialog sceneSticky = Ok true sceneSticky ∧
  UserInput declineInput ignoreChanged sceneDialog (EventKey KeyEsc)
    SizeFixed {| Focus := true |} None sceneSticky = Ok true sceneSticky.
Proof. repeat split; vm_compute; reflexivity. Qed.

(** * Construction *)

Lemma clickTargets_Columns_cons c D cols :
  clickTargets (Columns ((c, D) :: cols)) =
  clickTargets c ++ clickTargets (Columns cols).
Proof. reflexivity. Qed.

Lemma clickTargets_buttonColumns res bg bs (buttons : list Button) :
  ∀ g : nat -> nat,
    clickTargets
      (Columns (imap (fun i => buttonColumn res bg bs (g i)) buttons)) =
    imap (fun i b => [expectedCallback res (g i) b]) buttons.
Proof.
  induction buttons as [|b buttons IH]; intros g; [reflexivity|].
  rewrite !imap_cons. unfold buttonColumn at 1.
  rewrite clickTargets_Columns_cons. cbn [clickTargets app].
  f_equal.
  - unfold expectedCallback. by destruct (Action b).
  - apply (IH (g ∘ S)).
Qed.

Lemma clickTargets_dialogBody wrapper colsW bg border noShadow :
  clickTargets (dialogBody wrapper colsW bg border noShadow) =
  clickTargets (Columns colsW).
Proof.
  unfold dialogBody, dialogFrame, dialogRows.
  destruct colsW as [|[c D] colsW];
    [ rewrite decide_False by (simpl; lia)
    | rewrite decide_True by (simpl; lia) ];
    destruct noShadow; cbn; by rewrite ?app_nil_r.
Qed.

Lemma pileRows_dialogBody wrapper colsW bg border noShadow :
  pileRows (dialogBody wrapper colsW bg border noShadow) =
  Some (match colsW with
        | [] => [inl wrapper]
        | _ => [inl wrapper; inr (Styled Divider border);
                inr (Columns colsW)]
        end).
Proof.
  unfold dialogBody, dialogFrame, dialogRows.
  destruct colsW;
    [ rewrite decide_False by (simpl; lia)
    | rewrite decide_True by (simpl; lia) ];
    by destruct noShadow.
Qed.

Lemma pile_NewFlow_dialogRows wrapper colsW border s inner D :
  heap s !! wrapper = Some (ObjContainerWidget inner D) ->
  pile_NewFlow (dialogRows wrapper colsW border) s =
  match inner with
  | Some _ => Ok (Pile (dialogRows wrapper colsW border)) s
  | None => Panic NilDereference s
  end.
Proof.
  intros Hw. unfold pile_NewFlow, dialogRows.
  destruct (decide (0 < length colsW)%nat); cbn [pile_rows app];
    unfold load, mbind, M_bind, bind; rewrite Hw; by destruct inner.
Qed.

(** The run of [New(content, opts...)] up to [pile.NewFlow], and past it
    when [content] is not nil. *)
Lemma New_run content opts h tr :
  let opt := match opts with o :: _ => o | [] => zeroOptions end in
  let bg := default (MakePaletteEntry DefaultText DefaultBackground)
              (BackgroundStyle opt) in
  let bs := default (MakePaletteEntry DefaultButtonText DefaultButton)
              (ButtonStyle opt) in
  let border := default (MakePaletteEntry DefaultButton DefaultBackground)
                  (BackgroundStyle opt) in
  let l1 := fresh (dom h) in
  let h1 := <[l1 := ObjContainerWidget content (RenderWithWeight 1)]> h in
  let l2 := fresh (dom h1) in
  let h2 := <[l2 := ObjDialog zeroWidget]> h1 in
  let l3 := fresh (dom h2) in
  let colsW := match opts with
               | o :: _ => imap (buttonColumn l2 bg bs) (Buttons o)
               | [] => []
               end in
  New content opts {| heap := h; trace := tr |} =
    match content with
    | Some _ =>
        Ok l2
          {| heap :=
               <[l2 := ObjDialog
                         {| iwidget := Some l3; options := opt;
                            savedSubWidgetWidget := None;
                            savedContainer := None;
                            contentWrapper := Some l1; open := false;
                            NoFunction := None; Callbacks := [] |}]>
                 (<[l3 := ObjTree
                            (dialogBody l1 colsW bg border (NoShadow opt))]>
                    h2);
             trace := tr |}
    | None => Panic NilDereference {| heap := h2; trace := tr |}
    end ∧
  l1 ≠ l2 ∧ l2 ≠ l3 ∧ l1 ≠ l3 ∧
  h !! l1 = None ∧ h !! l2 = None ∧ h !! l3 = None.
Proof.
  intros opt bg bs border l1 h1 l2 h2 l3 colsW.
  assert (H1 : h !! l1 = None) by apply not_elem_of_dom, is_fresh.
  assert (H2 : h1 !! l2 = None) by apply not_elem_of_dom, is_fresh.
  assert (H3 : h2 !! l3 = None) by apply not_elem_of_dom, is_fresh.
  assert (H12 : l1 ≠ l2).
  { intros E. rewrite <- E in H2. unfold h1 in H2.
    by rewrite lookup_insert_eq in H2. }
  assert (H23 : l2 ≠ l3).
  { intros E. rewrite <- E in H3. unfold h2 in H3.
    by rewrite lookup_insert_eq in H3. }
  assert (H13 : l1 ≠ l3).
  { intros E. rewrite <- E in H3. unfold h2, h1 in H3.
    by rewrite lookup_insert_ne, lookup_insert_eq in H3. }
  assert (Hwrapper :
    h2 !! l1 = Some (ObjContainerWidget content (RenderWithWeight 1))).
  { unfold h2, h1. by rewrite lookup_insert_ne, lookup_insert_eq. }
  split.
  { pose proof (pile_NewFlow_dialogRows l1 colsW border
                  {| heap := h2; trace := tr |} content (RenderWithWeight 1)
                  Hwrapper) as Hpile.
    unfold New.
    unfold mbind at 1, M_bind at 1, bind at 1.
    change (alloc (ObjContainerWidget content (RenderWithWeight 1))
              {| heap := h; trace := tr |})
      with (Ok l1 {| heap := h1; trace := tr |}).
    cbv beta iota.
    unfold mbind at 1, M_bind at 1, bind at 1.
    change (alloc (ObjDialog zeroWidget) {| heap := h1; trace := tr |})
      with (Ok l2 {| heap := h2; trace := tr |}).
    cbv beta iota zeta.
    unfold mbind at 1, M_bind at 1, bind at 1.
    fold opt. fold bg bs border. fold colsW.
    rewrite Hpile. by destruct content. }
  repeat split; try done.
  - unfold h1 in H2. by rewrite lookup_insert_ne in H2.
  - unfold h2, h1 in H3. by rewrite !lookup_insert_ne in H3.
Qed.

(** C6: on a content that is not nil [New] returns.  With no buttons the
    pile of the body holds the content wrapper alone, no divider and no
    button row; with buttons the body has one click target per button, in
    order, button [i] carrying the single callback [cb-i] bound to its
    explicit action or, without one, to the closure that runs [Close] on
    the dialog [New] returns. *)
Theorem New_body content opts s :
  content ≠ None ->
  ∃ res wrapper body t dlg s',
    New content opts s = Ok res s' ∧
    widgetAt res s' = Some dlg ∧
    iwidget dlg = Some body ∧ heap s' !! body = Some (ObjTree t) ∧
    contentWrapper dlg = Some wrapper ∧
    heap s' !! wrapper =
      Some (ObjContainerWidget content (RenderWithWeight 1)) ∧
    (requestedButtons opts = [] -> pileRows t = Some [inl wrapper]) ∧
    (requestedButtons opts ≠ [] ->
       ∃ divider cols,
         pileRows t = Some [inl wrapper; inr divider; inr cols]) ∧
    length (clickTargets t) = length (requestedButtons opts) ∧
    clickTargets t =
      imap (fun i b => [expectedCallback res i b]) (requestedButtons opts) ∧
    ∀ i b ext app widget,
      requestedButtons opts !! i = Some b ->
      Action b = None ->
      Changed ext (expectedCallback res i b) app widget = Close res app.
Proof.
  intros Hcontent. destruct s as [h tr].
  destruct (New_run content opts h tr)
    as (Hrun & H21 & H32 & H31 & _).
  destruct content as [c|]; [clear Hcontent|done].
  set (l1 := fresh (dom h)) in *.
  set (h1 := <[l1 := ObjContainerWidget (Some c) (RenderWithWeight 1)]> h)
    in *.
  set (l2 := fresh (dom h1)) in *.
  set (h2 := <[l2 := ObjDialog zeroWidget]> h1) in *.
  set (l3 := fresh (dom h2)) in *.
  exists l2, l1, l3.
  eexists. eexists. eexists.
  split; [exact Hrun|].
  cbn [heap trace].
  unfold widgetAt. cbn [heap]. rewrite lookup_insert_eq.
  split; [reflexivity|]. cbn [iwidget contentWrapper].
  split; [reflexivity|].
  rewrite lookup_insert_ne, lookup_insert_eq by done.
  split; [reflexivity|]. split; [reflexivity|].
  split.
  { unfold h2, h1. rewrite !lookup_insert_ne by congruence.
    apply lookup_insert_eq. }
  assert (Hcols :
    match opts with
    | o :: _ =>
        imap (buttonColumn l2
                (default (MakePaletteEntry DefaultText DefaultBackground)
                   (BackgroundStyle o))
                (default (MakePaletteEntry DefaultButtonText DefaultButton)
                   (ButtonStyle o))) (Buttons o)
    | [] => []
    end = [] ↔ requestedButtons opts = []).
  { destruct opts as [|o ?]; [done|]. simpl. by destruct (Buttons o). }
  rewrite pileRows_dialogBody, clickTargets_dialogBody.
  assert (Htargets : ∀ bg bs,
    clickTargets
      (Columns match opts with
               | o :: _ => imap (buttonColumn l2 (bg o) (bs o)) (Buttons o)
               | [] => []
               end) =
    imap (fun i b => [expectedCallback l2 i b]) (requestedButtons opts)).
  { intros bg bs. destruct opts as [|o ?]; [reflexivity|].
    apply (clickTargets_buttonColumns l2 (bg o) (bs o) (Buttons o) id). }
  split; [|split; [|split; [|split]]].
  - intros E%Hcols. destruct opts; [done|]. cbn in E |- *. by rewrite E.
  - intros E. destruct opts as [|o ?]; [done|]. cbn in E |- *.
    destruct (Buttons o) eqn:Eb; [done|]. rewrite imap_cons. eauto.
  - destruct opts as [|o ?]; [reflexivity|].
    rewrite (Htargets (fun o => default _ (BackgroundStyle o))
                      (fun o => default _ (ButtonStyle o))).
    by rewrite length_imap.
  - destruct opts as [|o ?]; [reflexivity|].
    apply (Htargets (fun o => default _ (BackgroundStyle o))
                    (fun o => default _ (ButtonStyle o))).
  - intros i b ext app widget _ Hact. unfold Changed, expectedCallback.
    cbn. by rewrite Hact.
Qed.

Lemma New_body_witness :
  Some sceneContent ≠ None ∧
  ∃ res wrapper body t dlg s',
    New (Some sceneContent) [] scene = Ok res s' ∧
    widgetAt res s' = Some dlg ∧
    iwidget dlg = Some body ∧ heap s' !! body = Some (ObjTree t) ∧
    contentWrapper dlg = Some wrapper ∧
    pileRows t = Some [inl wrapper] ∧
    clickTargets t = [].
Proof.
  split; [discriminate|].
  destruct (New_body (Some sceneContent) [] scene)
    as (res & wrapper & body & t & dlg & s' & Hnew & Hd & Hbody & Ht & Hcw
        & _ & Hrows & _ & _ & Htargets & _); [discriminate|].
  exists res, wrapper, body, t, dlg, s'.
  split; [exact Hnew|]. split; [exact Hd|]. split; [exact Hbody|].
  split; [exact Ht|]. split; [exact Hcw|].
  split; [exact (Hrows eq_refl) | exact Htargets].
Defined.

(** The buttons of the scene: Ok quits, Cancel closes the scene's dialog. *)
Example scene_click_targets :
  ∃ body t,
    iwidget sceneWidget = Some body ∧ heap scene !! body = Some (ObjTree t) ∧
    clickTargets t =
      [ [ {| Name := "cb-0"; Fn := QuitFn |} ];
        [ {| Name := "cb-1"; Fn := CloseFn sceneDialog |} ] ].
Proof. do 2 eexists. repeat split; vm_compute; reflexivity. Qed.

(** * The maximizer *)

Lemma assertOverlay_inv x s ov s' :
  assertOverlay x s = Ok ov s' ->
  s' = s ∧ x = Some ov ∧
  ∃ top bottom va ht ha wd,
    heap s !! ov = Some (ObjOverlay top bottom va ht ha wd).
Proof.
  destruct x as [l|]; [|done].
  unfold assertOverlay, load, mbind, M_bind, bind.
  destruct (heap s !! l) as [[| | | |top bottom va ht ha wd|]|] eqn:E;
    try done.
  simpl. intros H. injection H as <- <-. eauto 10.
Qed.

Lemma liveOverlay_inv w s ov s' :
  liveOverlay w s = Ok ov s' ->
  s' = s ∧
  ∃ d l top bottom va ht ha wd,
    heap s !! w = Some (ObjDialog d) ∧ savedContainer d = Some l ∧
    (heap s !! l = Some (ObjComposite (Some ov)) ∨
     ∃ dc, heap s !! l = Some (ObjDialog dc) ∧ iwidget dc = Some ov) ∧
    heap s !! ov = Some (ObjOverlay top bottom va ht ha wd).
Proof.
  unfold liveOverlay. intros H.
  apply bind_Ok_inv in H as (c & s1 & Hc & H).
  apply SavedContainer_inv in Hc as (-> & d & Hw & Hsc).
  apply bind_Ok_inv in H as (sub & s2 & Hsub & H).
  apply container_SubWidget_inv in Hsub as (-> & l & -> & Hl).
  apply assertOverlay_inv in H
    as (-> & -> & top & bottom & va & ht & ha & wd & Hov).
  split; [done|]. exists d, l, top, bottom, va, ht, ha, wd. done.
Qed.

Lemma Width_inv w s wd s' :
  Width w s = Ok wd s' ->
  s' = s ∧ ∃ ov top bottom va ht ha,
    liveOverlay w s = Ok ov s ∧
    heap s !! ov = Some (ObjOverlay top bottom va ht ha wd).
Proof.
  unfold Width. intros H.
  apply bind_Ok_inv in H as (ov & s1 & Hov & H).
  pose proof (liveOverlay_inv _ _ _ _ Hov) as (-> & _).
  unfold overlay_Width, load, mbind, M_bind, bind in H.
  destruct (heap s !! ov) as [[| | | |top bottom va ht ha wd'|]|] eqn:E;
    try done.
  simpl in H. injection H as <- <-. eauto 10.
Qed.

Lemma Height_inv w s ht s' :
  Height w s = Ok ht s' ->
  s' = s ∧ ∃ ov top bottom va ha wd,
    liveOverlay w s = Ok ov s ∧
    heap s !! ov = Some (ObjOverlay top bottom va ht ha wd).
Proof.
  unfold Height. intros H.
  apply bind_Ok_inv in H as (ov & s1 & Hov & H).
  pose proof (liveOverlay_inv _ _ _ _ Hov) as (-> & _).
  unfold overlay_Height, load, mbind, M_bind, bind in H.
  destruct (heap s !! ov) as [[| | | |top bottom va ht' ha wd|]|] eqn:E;
    try done.
  simpl in H. injection H as <- <-. eauto 10.
Qed.

(** C7, the claim as stated fails: it speaks of every maximizer, and a
    maximizer keeps its flag and its recorded policies when the dialog is
    closed and opened again.  Maximize the opened dialog of the scene,
    close it, open it again 40 columns wide and as high as can be: with
    the same maximizer [Maximize] now returns false and changes nothing,
    and [Unmaximize] returns true and imposes the policies recorded in
    the first session, fixed by flow, not the 40 columns by maximum the
    dialog had before the two calls. *)
Lemma Maximize_Unmaximize_used_maximizer :
  sceneReopening sceneOpened = Ok sceneUsedMaximizer sceneReopened ∧
  sceneUsedMaximizer =
    {| Maxed := true; mWidth := RenderFixed; mHeight := RenderFlow |} ∧
  IsOpen sceneDialog sceneReopened = Ok true sceneReopened ∧
  Width sceneDialog sceneReopened = Ok (RenderWithUnits 40) sceneReopened ∧
  Height sceneDialog sceneReopened = Ok RenderMax sceneReopened ∧
  Maximize sceneUsedMaximizer sceneDialog None sceneReopened =
    Ok (sceneUsedMaximizer, false) sceneReopened ∧
  Unmaximize sceneUsedMaximizer sceneDialog None sceneReopened =
    Ok ({| Maxed := false; mWidth := RenderFixed; mHeight := RenderFlow |},
        true) sceneUnmaximized ∧
  Width sceneDialog sceneUnmaximized = Ok RenderFixed sceneUnmaximized ∧
  Height sceneDialog sceneUnmaximized = Ok RenderFlow sceneUnmaximized ∧
  RenderFixed ≠ RenderWithUnits 40 ∧ RenderFlow ≠ RenderMax.
Proof.
  repeat split; try discriminate; vm_compute; reflexivity.
Qed.

(** C7, amended: on a dialog whose overlay is live, with width [wd] and
    height [ht], and a maximizer that is not maximized: [Maximize] returns
    true, records [wd] and [ht] and sets both policies to ratio 1; a
    second [Maximize] returns false and changes neither the maximizer nor
    the world; [Unmaximize] then returns true and puts the world back
    exactly, so the policies are [wd] and [ht] again.  [Unmaximize] on an
    unmaximized maximizer returns false and changes nothing. *)
Theorem Maximize_Unmaximize s m w wd ht app :
  Width w s = Ok wd s ->
  Height w s = Ok ht s ->
  Maxed m = false ->
  Unmaximize m w app s = Ok (m, false) s ∧
  ∃ m1 s1,
    Maximize m w app s = Ok (m1, true) s1 ∧
    m1 = {| Maxed := true; mWidth := wd; mHeight := ht |} ∧
    Width w s1 = Ok (RenderWithRatio 1) s1 ∧
    Height w s1 = Ok (RenderWithRatio 1) s1 ∧
    Maximize m1 w app s1 = Ok (m1, false) s1 ∧
    ∃ m2 s2,
      Unmaximize m1 w app s1 = Ok (m2, true) s2 ∧
      Maxed m2 = false ∧
      Width w s2 = Ok wd s2 ∧ Height w s2 = Ok ht s2 ∧ s2 = s.
Proof.
  intros Hwd Hht Hm. split.
  { unfold Unmaximize. by rewrite Hm. }
  apply Width_inv in Hwd
    as (_ & ov & top & bottom & va & ht' & ha & Hlive & Hov).
  apply Height_inv in Hht
    as (_ & ov' & ? & ? & ? & ? & wd' & Hlive' & Hov').
  rewrite Hlive in Hlive'. injection Hlive' as <-.
  rewrite Hov in Hov'. injection Hov' as -> -> -> -> -> <-.
  apply liveOverlay_inv in Hlive
    as (_ & d & l & ? & ? & ? & ? & ? & ? & Hw & Hsc & Hl & Hov'').
  clear Hov''.
  destruct s as [h tr], d as [iw opts ss sc cw ow nf cbs], m as [mx mw mh].
  cbn [heap trace savedContainer Maxed] in *. subst sc mx.
  assert (w ≠ ov) by congruence.
  match type of Hov with
  | _ = Some ?o =>
      assert (Hrestore : ∀ o1 o2 o3,
        <[ov := o]> (<[ov := o1]> (<[ov := o2]> (<[ov := o3]> h))) = h)
  end.
  { intros. rewrite !insert_insert_eq. by apply insert_id. }
  assert (l ≠ ov) by (destruct Hl as [?|(? & ? & ?)]; congruence).
  destruct Hl as [Hl | (dc & Hl & Hdc)];
    [ assert (l ≠ w) by congruence
    | destruct (decide (l = w)) as [->|?];
      [ rewrite Hw in Hl; injection Hl as <-
      | destruct dc as [iw' ? ? ? ? ? ? ?] ];
      cbn in Hdc; subst ].
  all: do 2 eexists; split; [mrun; reflexivity|].
  all: split; [reflexivity|].
  all: split; [mrun; reflexivity|]; split; [mrun; reflexivity|].
  all: split; [reflexivity|].
  all: do 2 eexists; split; [mrun; reflexivity|].
  all: split; [reflexivity|]; rewrite Hrestore.
  all: repeat split; mrun; reflexivity.
Qed.

Lemma Maximize_Unmaximize_witness :
  Width sceneDialog sceneOpened = Ok RenderFixed sceneOpened ∧
  Height sceneDialog sceneOpened = Ok RenderFlow sceneOpened ∧
  ∃ m1 s1,
    Maximize {| Maxed := false; mWidth := NilDimension;
                mHeight := NilDimension |} sceneDialog None sceneOpened
      = Ok (m1, true) s1 ∧
    m1 = {| Maxed := true; mWidth := RenderFixed; mHeight := RenderFlow |} ∧
    Maximize m1 sceneDialog None s1 = Ok (m1, false) s1 ∧
    ∃ m2, Unmaximize m1 sceneDialog None s1 = Ok (m2, true) sceneOpened ∧
          Maxed m2 = false.
Proof.
  split; [vm_compute; reflexivity|]. split; [vm_compute; reflexivity|].
  destruct (Maximize_Unmaximize sceneOpened
              {| Maxed := false; mWidth := NilDimension;
                 mHeight := NilDimension |}
              sceneDialog RenderFixed RenderFlow None)
    as (_ & m1 & s1 & Hmax & Hm1 & _ & _ & Hagain & m2 & s2 & Hun & Hm2
          & _ & _ & ->);
    [vm_compute; reflexivity | vm_compute; reflexivity | reflexivity |].
  exists m1, s1. split; [exact Hmax|]. split; [exact Hm1|].
  split; [exact Hagain|]. exists m2. split; [exact Hun | exact Hm2].
Defined.

(** * The saved references *)

Lemma SetContentWidth_inv w D' app s s' :
  SetContentWidth w D' app s = Ok tt s' ->
  ∃ d cw inner D,
    heap s !! w = Some (ObjDialog d) ∧ contentWrapper d = Some cw ∧
    heap s !! cw = Some (ObjContainerWidget inner D).
Proof.
  unfold SetContentWidth. intros H.
  apply bind_Ok_inv in H as (d & s1 & Hd & H).
  apply getWidget_inv in Hd as [-> Hw].
  destruct (contentWrapper d) as [cw|] eqn:Hcw; [|done].
  unfold load, mbind, M_bind, bind in H.
  destruct (heap s !! cw) as [[| | |inner D| |]|] eqn:E; try done.
  eauto 10.
Qed.

Lemma OpenExt_Ok_ready w c width height app s s' :
  OpenExt w c width height app s = Ok tt s' ->
  dialogReady w s = true ∧ ∃ x, container_SubWidget c s = Ok x s.
Proof.
  unfold OpenExt. intros H.
  apply bind_Ok_inv in H as (bottom & s1 & Hc & H).
  pose proof (container_SubWidget_inv _ _ _ _ Hc) as (-> & _).
  split; [|eauto].
  apply bind_Ok_inv in H as (ov & s2 & Hov & H).
  unfold overlay_New, alloc in Hov. injection Hov as <- <-.
  apply bind_Ok_inv in H as ([] & s3 & Hsize & _).
  assert (∃ D', SetContentWidth w D' app
      {| heap := <[fresh (dom (heap s)) :=
                     ObjOverlay (Some w) bottom VAlignMiddle height
                       HAlignMiddle width]> (heap s);
         trace := trace s |} = Ok tt s3) as [D' Hsize'].
  { destruct (IRenderFixed width); eauto. }
  apply SetContentWidth_inv in Hsize' as (d & cw & inner & D & Hw & Hcw & Hcw').
  cbn [heap] in Hw, Hcw'.
  rewrite lookup_insert_ne in Hw
    by (intros E; rewrite <- E, lookup_insert_eq in Hw; done).
  rewrite lookup_insert_ne in Hcw'
    by (intros E; rewrite <- E, lookup_insert_eq in Hcw'; done).
  unfold dialogReady. by rewrite Hw, Hcw, Hcw'.
Qed.

Lemma OpenExt_inv w c x width height app s s' :
  OpenExt w c width height app s = Ok tt s' ->
  container_SubWidget c s = Ok x s ->
  ∃ d', widgetAt w s' = Some d' ∧ open d' = true ∧
        savedContainer d' = c ∧ c ≠ None ∧ savedSubWidgetWidget d' = x.
Proof.
  intros Hrun Hc.
  pose proof (OpenExt_Ok_ready _ _ _ _ _ _ _ Hrun) as [Hready _].
  revert Hrun. scene_cases Hready Hc.
  all: destruct (IRenderFixed width) eqn:Hf; destruct ow.
  all: mrun; rewrite Hf; mrun; intros Hrun; injection Hrun as <-.
  all: eexists; split; [unfold widgetAt; mrun; reflexivity|done].
Qed.

Lemma container_SetSubWidget_inv c x app s s' :
  container_SetSubWidget c x app s = Ok tt s' ->
  trace s' = trace s ∧
  ∃ l o', c = Some l ∧ heap s' = <[l := o']> (heap s) ∧
    ((∃ ch, heap s !! l = Some (ObjComposite ch)) ∧ o' = ObjComposite x ∨
     ∃ dc, heap s !! l = Some (ObjDialog dc) ∧
           o' = ObjDialog (set_iwidget x dc)).
Proof.
  destruct c as [l|]; [|done].
  unfold container_SetSubWidget, load, mbind, M_bind, bind.
  destruct (heap s !! l) as [[| |ch| | |dc]|] eqn:E; try done.
  - simpl. intros H. injection H as <-. split; [done|].
    exists l. eexists. split; [done|]. split; [done|]. left. eauto.
  - rewrite (SetSubWidget_run _ _ _ E). intros H. injection H as <-.
    split; [done|]. exists l. eexists. split; [done|]. split; [done|].
    right. eauto.
Qed.

Lemma SetOpen_inv w b app s s' :
  SetOpen w b app s = Ok tt s' ->
  ∃ d, heap s !! w = Some (ObjDialog d) ∧
       heap s' = <[w := ObjDialog (set_open b d)]> (heap s).
Proof.
  intros H.
  assert (∃ d, heap s !! w = Some (ObjDialog d)) as [d Hw].
  { unfold SetOpen in H. apply bind_Ok_inv in H as (d & s1 & Hd & _).
    apply getWidget_inv in Hd as [_ Hw]. eauto. }
  rewrite (SetOpen_run _ _ _ Hw) in H. injection H as <-. eauto.
Qed.

Lemma Close_inv w app s s' :
  Close w app s = Ok tt s' ->
  ∃ d d', widgetAt w s = Some d ∧ widgetAt w s' = Some d' ∧
          open d' = false ∧ savedContainer d' = savedContainer d ∧
          savedSubWidgetWidget d' = savedSubWidgetWidget d ∧
          savedContainer d ≠ None.
Proof.
  unfold Close. intros H.
  apply bind_Ok_inv in H as (c & s1 & Hc & H).
  apply SavedContainer_inv in Hc as (-> & d & Hw & <-).
  rewrite (bind_Ok _ _ _ _ _ (SavedSubWidget_run _ _ _ Hw)) in H.
  apply bind_Ok_inv in H as ([] & s2 & Hset & H).
  apply container_SetSubWidget_inv in Hset as (_ & l & o' & Hl & Hs2 & Ho').
  apply SetOpen_inv in H as (d2 & Hw2 & Hs').
  exists d, (set_open false d2). unfold widgetAt.
  rewrite Hw, Hs', lookup_insert_eq, Hl.
  rewrite Hs2 in Hw2.
  destruct (decide (l = w)) as [->|Hne].
  - rewrite lookup_insert_eq in Hw2.
    destruct Ho' as [[[ch Hch] ->] | (dc & Hdc & ->)]; [congruence|].
    injection Hw2 as <-. rewrite Hw in Hdc. by injection Hdc as <-.
  - rewrite lookup_insert_ne, Hw in Hw2 by done. by injection Hw2 as <-.
Qed.

(** C2, the claim as stated fails.  After [Open] and [Close] the dialog is
    closed while its saved container and saved child are still recorded;
    after [SetOpen(true)] on a fresh dialog it is open while neither is;
    and opened over a container whose child slot is nil it is open with a
    saved container and a nil saved child. *)
Lemma saved_references_not_equivalent :
  sceneSetup emptyWorld = Ok sceneDialog scene ∧
  (reach sceneDialog scene sceneReclosed ∧
   widgetAt sceneDialog sceneReclosed = Some sceneReclosedWidget ∧
   open sceneReclosedWidget = false ∧
   savedContainer sceneReclosedWidget = Some sceneApp ∧
   savedSubWidgetWidget sceneReclosedWidget = Some sceneView ∧
   ¬ savedEquivalent sceneReclosedWidget) ∧
  (SetOpen sceneDialog true None scene = Ok tt sceneForcedOpen ∧
   widgetAt sceneDialog sceneForcedOpen = Some sceneForcedOpenWidget ∧
   open sceneForcedOpenWidget = true ∧
   savedContainer sceneForcedOpenWidget = None ∧
   ¬ savedEquivalent sceneForcedOpenWidget) ∧
  (widgetAt 4%positive sceneEmptyApp = Some sceneEmptyAppWidget ∧
   open sceneEmptyAppWidget = true ∧
   savedContainer sceneEmptyAppWidget = Some 1%positive ∧
   savedSubWidgetWidget sceneEmptyAppWidget = None ∧
   ¬ savedEquivalent sceneEmptyAppWidget).
Proof.
  split; [vm_compute; reflexivity|]. split; [|split].
  - split.
    { eapply reach_Close with (s1 := sceneOpened) (app := None).
      - eapply reach_Open with (s1 := scene) (c := Some sceneApp)
          (x := sceneView) (width := RenderFixed) (app := None).
        + apply reach_start.
        + vm_compute; reflexivity.
        + vm_compute; reflexivity.
      - vm_compute; reflexivity. }
    repeat split; try (vm_compute; reflexivity).
    intros [[_ H] _].
    assert (open sceneReclosedWidget = true) as E by (apply H; discriminate).
    vm_compute in E. discriminate.
  - repeat split; try (vm_compute; reflexivity).
    intros [[H _] _].
    assert (savedContainer sceneForcedOpenWidget ≠ None) as E
      by (apply H; vm_compute; reflexivity).
    apply E. vm_compute; reflexivity.
  - repeat split; try (vm_compute; reflexivity).
    intros [_ [H _]].
    assert (savedSubWidgetWidget sceneEmptyAppWidget ≠ None) as E
      by (apply H; discriminate).
    apply E. vm_compute; reflexivity.
Qed.

(** C2, amended: along any sequence of [Open]/[OpenExt] (over a container
    whose child slot is occupied), [Close] and [SetOpen(false)] that runs
    to completion, an open dialog has a saved container and a saved
    child, and the two are recorded together.  [Close] does not clear
    them: the dialog it leaves is closed with both still recorded. *)
Theorem saved_references_when_open w s s' d :
  widgetAt w s = Some d ->
  savedWhenOpen d ->
  reach w s s' ->
  ∃ d', widgetAt w s' = Some d' ∧ savedWhenOpen d' ∧
    ∀ app s'', Close w app s' = Ok tt s'' ->
      ∃ d'', widgetAt w s'' = Some d'' ∧ open d'' = false ∧
             savedContainer d'' = savedContainer d' ∧
             savedSubWidgetWidget d'' = savedSubWidgetWidget d' ∧
             savedContainer d'' ≠ None.
Proof.
  intros Hd Hinv Hreach.
  assert (Hgoal : ∃ d', widgetAt w s' = Some d' ∧ savedWhenOpen d').
  { induction Hreach as
      [ | s1 s2 c x width height app _ IH Hc Hrun
        | s1 s2 c x width app _ IH Hc Hrun
        | s1 s2 app _ IH Hrun
        | s1 s2 app _ IH Hrun ].
    - eauto.
    - destruct (OpenExt_inv _ _ _ _ _ _ _ _ Hrun Hc)
        as (d' & Hd' & _ & Hsc & Hne & Hss).
      exists d'. split; [done|]. unfold savedWhenOpen.
      rewrite Hsc, Hss. split; [by split | by split].
    - destruct (OpenExt_inv _ _ _ _ _ _ _ _ Hrun Hc)
        as (d' & Hd' & _ & Hsc & Hne & Hss).
      exists d'. split; [done|]. unfold savedWhenOpen.
      rewrite Hsc, Hss. split; [by split | by split].
    - destruct IH as (d1 & Hd1 & _ & Hboth).
      destruct (Close_inv _ _ _ _ Hrun)
        as (d1' & d' & Hd1' & Hd' & Hopen & Hsc & Hss & _).
      rewrite Hd1 in Hd1'. injection Hd1' as <-.
      exists d'. split; [done|]. unfold savedWhenOpen.
      rewrite Hopen, Hsc, Hss. split; [done | exact Hboth].
    - destruct IH as (d1 & Hd1%widgetAt_lookup & _ & Hboth).
      destruct (SetOpen_inv _ _ _ _ _ Hrun) as (d1' & Hd1' & Hs2).
      rewrite Hd1 in Hd1'. injection Hd1' as <-.
      exists (set_open false d1). unfold widgetAt, savedWhenOpen.
      rewrite Hs2, lookup_insert_eq. split; [done|].
      split; [done | exact Hboth]. }
  destruct Hgoal as (d' & Hd' & Hinv'). exists d'.
  split; [done|]. split; [done|]. intros app s'' Hclose.
  destruct (Close_inv _ _ _ _ Hclose)
    as (d1 & d'' & Hd1 & Hd'' & Hopen & Hsc & Hss & Hne).
  rewrite Hd' in Hd1. injection Hd1 as <-.
  exists d''. rewrite Hsc. done.
Qed.

Lemma saved_references_when_open_witness :
  widgetAt sceneDialog scene = Some sceneWidget ∧
  savedWhenOpen sceneWidget ∧
  reach sceneDialog scene sceneOpened ∧
  ∃ d', widgetAt sceneDialog sceneOpened = Some d' ∧ savedWhenOpen d' ∧
    ∀ app s'', Close sceneDialog app sceneOpened = Ok tt s'' ->
      ∃ d'', widgetAt sceneDialog s'' = Some d'' ∧ open d'' = false ∧
             savedContainer d'' = savedContainer d' ∧
             savedSubWidgetWidget d'' = savedSubWidgetWidget d' ∧
             savedContainer d'' ≠ None.
Proof.
  assert (Hd : widgetAt sceneDialog scene = Some sceneWidget)
    by (vm_compute; reflexivity).
  assert (Hinv : savedWhenOpen sceneWidget).
  { split.
    - intros E. vm_compute in E. discriminate.
    - vm_compute. tauto. }
  assert (Hreach : reach sceneDialog scene sceneOpened).
  { eapply reach_Open with (s1 := scene) (c := Some sceneApp)
      (x := sceneView) (width := RenderFixed) (app := None).
    - apply reach_start.
    - vm_compute; reflexivity.
    - vm_compute; reflexivity. }
  split; [exact Hd|]. split; [exact Hinv|]. split; [exact Hreach|].
  exact (saved_references_when_open sceneDialog scene sceneOpened sceneWidget
           Hd Hinv Hreach).
Defined.

(** * More of the package *)

(** ** What [OpenExt] leaves behind *)

Lemma OpenExt_post s w c x width height app :
  dialogReady w s = true ->
  container_SubWidget c s = Ok x s ->
  ∃ s' ov d d',
    OpenExt w c width height app s = Ok tt s' ∧
    heap s !! ov = None ∧
    widgetAt w s = Some d ∧ widgetAt w s' = Some d' ∧
    container_SubWidget c s' = Ok (Some ov) s' ∧
    heap s' !! ov =
      Some (ObjOverlay (Some w) x VAlignMiddle height HAlignMiddle width) ∧
    open d' = true ∧ savedContainer d' = c ∧ savedSubWidgetWidget d' = x ∧
    options d' = options d ∧ contentWrapper d' = contentWrapper d ∧
    Callbacks d' = Callbacks d ∧
    dialogReady w s' = true ∧
    trace s' =
      trace s ++
      [ {| fkey := SavedSubWidgetCB; ftarget := w;
           fran := (filter (fun kv => kv.1 = SavedSubWidgetCB)
                      (Callbacks d)).*2 |};
        {| fkey := SavedContainerCB; ftarget := w;
           fran := (filter (fun kv => kv.1 = SavedContainerCB)
                      (Callbacks d)).*2 |} ] ++
      (if open d then []
       else [ {| fkey := OpenCloseCB; ftarget := w;
                 fran := (filter (fun kv => kv.1 = OpenCloseCB)
                            (Callbacks d)).*2 |} ]) ∧
    ∀ l, l ≠ w -> Some l ≠ c -> Some l ≠ contentWrapper d -> l ≠ ov ->
         heap s' !! l = heap s !! l.
Proof.
  intros Hready Hc. scene_cases Hready Hc.
  all: destruct (IRenderFixed width) eqn:Hf; destruct ow.
  all: eexists; exists (fresh (dom h)); do 2 eexists.
  all: split; [mrun; rewrite Hf; mrun; reflexivity|].
  all: split; [apply not_elem_of_dom, is_fresh|].
  all: split; [unfold widgetAt; mrun; reflexivity|].
  all: split; [unfold widgetAt; mrun; reflexivity|].
  all: split; [mrun; reflexivity|].
  all: split; [mrun; reflexivity|].
  all: do 6 (split; [reflexivity|]).
  all: split; [unfold dialogReady; mrun; reflexivity|].
  all: split; [cbn; by rewrite <- ?app_assoc|].
  all: intros l0 ? ? ? ?; simpl in *.
  all: rewrite !lookup_insert_ne by congruence; reflexivity.
Qed.

(** ** What [Close] leaves behind *)

(** The shapes of a dialog facing its saved container. *)
Ltac close_cases Hw Hsc Hc :=
  let dc := fresh "dc" in
  lazymatch type of Hw with
  | widgetAt _ ?s = Some ?d =>
      apply widgetAt_lookup in Hw;
      apply container_SubWidget_inv in Hc
        as (_ & ?l' & ?El & [?Hl | (dc & ?Hl & <-)]);
      injection El as <-;
      destruct s as [?h ?tr];
      destruct d as [?iw ?opts ?ss ?sc ?cw ?ow ?nf ?cbs]
  end;
  cbn [heap trace] in *; simpl in Hsc; subst;
  [ | match goal with
      | Hw : ?h !! ?w = Some (ObjDialog _), Hl : ?h !! ?l = Some (ObjDialog dc)
        |- _ =>
          destruct (decide (l = w)) as [->|?];
          [ rewrite Hw in Hl; injection Hl as <- | destruct dc ]
      end ];
  repeat match goal with
    | H1 : ?h !! ?a = Some ?o1, H2 : ?h !! ?b = Some ?o2 |- _ =>
        lazymatch goal with
        | _ : a ≠ b |- _ => fail
        | _ => assert (a ≠ b) by congruence
        end
    end.

Lemma Close_post s w d l y app :
  widgetAt w s = Some d ->
  savedContainer d = Some l ->
  container_SubWidget (Some l) s = Ok y s ->
  ∃ s' d',
    Close w app s = Ok tt s' ∧
    container_SubWidget (Some l) s' = Ok (savedSubWidgetWidget d) s' ∧
    widgetAt w s' = Some d' ∧
    open d' = false ∧ savedContainer d' = Some l ∧
    savedSubWidgetWidget d' = savedSubWidgetWidget d ∧
    options d' = options d ∧ contentWrapper d' = contentWrapper d ∧
    Callbacks d' = Callbacks d ∧
    trace s' =
      trace s ++
      (if open d
       then [ {| fkey := OpenCloseCB; ftarget := w;
                 fran := (filter (fun kv => kv.1 = OpenCloseCB)
                            (Callbacks d)).*2 |} ]
       else []) ∧
    ∀ l', l' ≠ w -> l' ≠ l -> heap s' !! l' = heap s !! l'.
Proof.
  intros Hw Hsc Hc. close_cases Hw Hsc Hc.
  all: destruct ow.
  all: do 2 eexists; split; [mrun; reflexivity|].
  all: split; [mrun; reflexivity|].
  all: split; [unfold widgetAt; mrun; reflexivity|].
  all: do 6 (split; [reflexivity|]).
  all: split; [cbn; by rewrite ?app_nil_r|].
  all: intros l0 ? ?; simpl.
  all: rewrite !lookup_insert_ne by congruence; reflexivity.
Qed.

(** ** Reading the live overlay *)

Lemma liveOverlay_run s w d ov top bottom va ht ha wd :
  heap s !! w = Some (ObjDialog d) ->
  container_SubWidget (savedContainer d) s = Ok (Some ov) s ->
  heap s !! ov = Some (ObjOverlay top bottom va ht ha wd) ->
  liveOverlay w s = Ok ov s.
Proof.
  intros Hw Hc Hov. unfold liveOverlay.
  rewrite (bind_Ok _ _ _ _ _ (SavedContainer_run _ _ _ Hw)).
  rewrite (bind_Ok _ _ _ _ _ Hc).
  unfold assertOverlay, load, mbind, M_bind, bind. by rewrite Hov.
Qed.

Lemma Width_run s w ov top bottom va ht ha wd :
  liveOverlay w s = Ok ov s ->
  heap s !! ov = Some (ObjOverlay top bottom va ht ha wd) ->
  Width w s = Ok wd s.
Proof.
  intros Hlive Hov. unfold Width. rewrite (bind_Ok _ _ _ _ _ Hlive).
  unfold overlay_Width, load, mbind, M_bind, bind. by rewrite Hov.
Qed.

Lemma Height_run s w ov top bottom va ht ha wd :
  liveOverlay w s = Ok ov s ->
  heap s !! ov = Some (ObjOverlay top bottom va ht ha wd) ->
  Height w s = Ok ht s.
Proof.
  intros Hlive Hov. unfold Height. rewrite (bind_Ok _ _ _ _ _ Hlive).
  unfold overlay_Height, load, mbind, M_bind, bind. by rewrite Hov.
Qed.

(** An overlay is none of the objects [OpenExt] writes to. *)
Lemma overlay_apart s w d c y ov top bottom va ht ha wd :
  heap s !! ov = Some (ObjOverlay top bottom va ht ha wd) ->
  widgetAt w s = Some d ->
  dialogReady w s = true ->
  container_SubWidget c s = Ok y s ->
  ov ≠ w ∧ Some ov ≠ c ∧ Some ov ≠ contentWrapper d.
Proof.
  intros Hov Hw%widgetAt_lookup Hready Hc.
  apply dialogReady_inv in Hready as (d0 & cw & inner & D & Hw0 & Hcw & Hcw').
  rewrite Hw in Hw0. injection Hw0 as <-.
  apply container_SubWidget_inv in Hc as (_ & l & -> & Hl).
  split; [congruence|]. split.
  - intros [= <-]. destruct Hl as [Hl | (dc & Hl & _)]; congruence.
  - rewrite Hcw. congruence.
Qed.

(** X1: [OpenExt] on a ready dialog puts into the container's child slot a
    newly allocated overlay whose top is the dialog and whose bottom is the
    previous child, centred both ways, with the height and width policies
    given; the dialog's own [Width] and [Height] then read those policies,
    the dialog is open, and the previous child and the container are the
    saved references. *)
Theorem OpenExt_installs_overlay s w c x width height app :
  dialogReady w s = true ->
  container_SubWidget c s = Ok x s ->
  ∃ s' ov,
    OpenExt w c width height app s = Ok tt s' ∧
    heap s !! ov = None ∧
    container_SubWidget c s' = Ok (Some ov) s' ∧
    heap s' !! ov =
      Some (ObjOverlay (Some w) x VAlignMiddle height HAlignMiddle width) ∧
    Width w s' = Ok width s' ∧ Height w s' = Ok height s' ∧
    IsOpen w s' = Ok true s' ∧
    SavedSubWidget w s' = Ok x s' ∧ SavedContainer w s' = Ok c s'.
Proof.
  intros Hready Hc.
  destruct (OpenExt_post s w c x width height app Hready Hc)
    as (s' & ov & d & d' & Hrun & Hfresh & _ & Hd'%widgetAt_lookup & Hc'
        & Hov & Hopen & Hsc & Hss & _).
  assert (Hlive : liveOverlay w s' = Ok ov s').
  { eapply liveOverlay_run; [exact Hd' | by rewrite Hsc | exact Hov]. }
  exists s', ov. repeat split; try done.
  - by eapply Width_run.
  - by eapply Height_run.
  - by rewrite (IsOpen_run _ _ _ Hd'), Hopen.
  - by rewrite (SavedSubWidget_run _ _ _ Hd'), Hss.
  - by rewrite (SavedContainer_run _ _ _ Hd'), Hsc.
Qed.

Lemma OpenExt_installs_overlay_witness :
  dialogReady sceneDialog scene = true ∧
  container_SubWidget (Some sceneApp) scene = Ok (Some sceneView) scene ∧
  ∃ s' ov,
    OpenExt sceneDialog (Some sceneApp) (RenderWithUnits 40) RenderMax None
      scene = Ok tt s' ∧
    heap scene !! ov = None ∧
    container_SubWidget (Some sceneApp) s' = Ok (Some ov) s' ∧
    Width sceneDialog s' = Ok (RenderWithUnits 40) s' ∧
    Height sceneDialog s' = Ok RenderMax s'.
Proof.
  split; [vm_compute; reflexivity|]. split; [vm_compute; reflexivity|].
  destruct (OpenExt_installs_overlay scene sceneDialog (Some sceneApp)
              (Some sceneView) (RenderWithUnits 40) RenderMax None)
    as (s' & ov & Hrun & Hfresh & Hc & _ & Hwd & Hht & _);
    [vm_compute; reflexivity ..|].
  exists s', ov. repeat split; assumption.
Defined.

(** X2: [OpenExt] writes to the dialog, to the container, to the dialog's
    content wrapper and to the overlay it allocates, and to nothing else:
    every other object of the store is as it was. *)
Theorem OpenExt_frame s s' w d c width height app l o :
  widgetAt w s = Some d ->
  OpenExt w c width height app s = Ok tt s' ->
  heap s !! l = Some o ->
  l ≠ w -> Some l ≠ c -> Some l ≠ contentWrapper d ->
  heap s' !! l = Some o.
Proof.
  intros Hd Hrun Hl Hw Hc Hcw.
  destruct (OpenExt_Ok_ready _ _ _ _ _ _ _ Hrun) as (Hready & x & Hx).
  destruct (OpenExt_post s w c x width height app Hready Hx)
    as (s1 & ov & d1 & _ & Hrun1 & Hfresh & Hd1 & _ & _ & _ & _ & _ & _ & _
        & _ & _ & _ & _ & Hframe).
  rewrite Hrun in Hrun1. injection Hrun1 as <-.
  rewrite Hd in Hd1. injection Hd1 as <-.
  rewrite Hframe; [done..|]. congruence.
Qed.

Lemma OpenExt_frame_witness :
  widgetAt sceneDialog scene = Some sceneWidget ∧
  Open sceneDialog (Some sceneApp) RenderFixed None scene
    = Ok tt sceneOpened ∧
  heap scene !! sceneView = Some (ObjExternal 0) ∧
  heap sceneOpened !! sceneView = Some (ObjExternal 0).
Proof.
  assert (Hd : widgetAt sceneDialog scene = Some sceneWidget)
    by (vm_compute; reflexivity).
  assert (Hrun : OpenExt sceneDialog (Some sceneApp) RenderFixed RenderFlow
                   None scene = Ok tt sceneOpened)
    by (vm_compute; reflexivity).
  assert (Hl : heap scene !! sceneView = Some (ObjExternal 0))
    by (vm_compute; reflexivity).
  split; [exact Hd|]. split; [exact Hrun|]. split; [exact Hl|].
  apply (OpenExt_frame scene sceneOpened sceneDialog sceneWidget
           (Some sceneApp) RenderFixed RenderFlow None sceneView
           (ObjExternal 0) Hd Hrun Hl); vm_compute; discriminate.
Defined.

(** ** Counting firings *)

Lemma firings_app key w t1 t2 :
  firings key w (t1 ++ t2) = (firings key w t1 + firings key w t2)%nat.
Proof. unfold firings. by rewrite filter_app, length_app. Qed.

Lemma firings_cons key w f t :
  firings key w (f :: t) =
  ((if decide (fkey f = key ∧ ftarget f = w) then 1 else 0) +
   firings key w t)%nat.
Proof. unfold firings. rewrite filter_cons. by case_decide. Qed.

Lemma firings_nil key w : firings key w [] = 0%nat.
Proof. reflexivity. Qed.

Ltac count_trace :=
  rewrite ?firings_app, ?firings_cons, ?firings_nil; cbn [fkey ftarget];
  repeat match goal with
    | |- context [decide ?P] =>
        let Hn := fresh in
        destruct (decide P) as [[? ?]|Hn];
        [ try congruence | try (exfalso; apply Hn; split; reflexivity) ]
    end;
  lia.

(** X3: every [OpenExt] fires the saved-child registry and the
    saved-container registry once each, whether or not the dialog was open
    and whatever was saved before, and the open/close registry only when
    the dialog was closed; the [Close] after it fires the open/close
    registry once and the two saved registries not at all. *)
Theorem OpenExt_Close_firings s w c x width height app wasOpen :
  dialogReady w s = true ->
  container_SubWidget c s = Ok x s ->
  IsOpen w s = Ok wasOpen s ->
  ∃ s1 s2,
    OpenExt w c width height app s = Ok tt s1 ∧
    firings SavedSubWidgetCB w (trace s1) =
      S (firings SavedSubWidgetCB w (trace s)) ∧
    firings SavedContainerCB w (trace s1) =
      S (firings SavedContainerCB w (trace s)) ∧
    firings OpenCloseCB w (trace s1) =
      (firings OpenCloseCB w (trace s) + (if wasOpen then 0 else 1))%nat ∧
    Close w app s1 = Ok tt s2 ∧
    firings SavedSubWidgetCB w (trace s2) =
      firings SavedSubWidgetCB w (trace s1) ∧
    firings SavedContainerCB w (trace s2) =
      firings SavedContainerCB w (trace s1) ∧
    firings OpenCloseCB w (trace s2) =
      S (firings OpenCloseCB w (trace s1)).
Proof.
  intros Hready Hc Hopen.
  destruct (OpenExt_post s w c x width height app Hready Hc)
    as (s1 & ov & d & d1 & Hrun & _ & Hd%widgetAt_lookup & Hd1 & Hc1 & _
        & Hopen1 & Hsc1 & _ & _ & _ & Hcbs & _ & Htr & _).
  rewrite (IsOpen_run _ _ _ Hd) in Hopen. injection Hopen as <-.
  pose proof (container_SubWidget_inv _ _ _ _ Hc) as (_ & l & -> & _).
  destruct (Close_post s1 w d1 l (Some ov) app Hd1 Hsc1 Hc1)
    as (s2 & d2 & Hclose & _ & _ & _ & _ & _ & _ & _ & _ & Htr2 & _).
  exists s1, s2. rewrite Htr2, Hopen1, Htr.
  repeat split; try done; destruct (open d); count_trace.
Qed.

Lemma OpenExt_Close_firings_witness :
  dialogReady sceneDialog sceneOpened = true ∧
  container_SubWidget (Some sceneApp) sceneOpened
    = Ok (Some 7%positive) sceneOpened ∧
  IsOpen sceneDialog sceneOpened = Ok true sceneOpened ∧
  ∃ s1,
    OpenExt sceneDialog (Some sceneApp) RenderFixed RenderFlow None
      sceneOpened = Ok tt s1 ∧
    firings SavedSubWidgetCB sceneDialog (trace s1) = 2%nat ∧
    firings SavedContainerCB sceneDialog (trace s1) = 2%nat ∧
    firings OpenCloseCB sceneDialog (trace s1) = 1%nat.
Proof.
  split; [vm_compute; reflexivity|]. split; [vm_compute; reflexivity|].
  split; [vm_compute; reflexivity|].
  destruct (OpenExt_Close_firings sceneOpened sceneDialog (Some sceneApp)
              (Some 7%positive) RenderFixed RenderFlow None true)
    as (s1 & s2 & Hrun & H1 & H2 & H3 & _); [vm_compute; reflexivity ..|].
  exists s1. split; [exact Hrun|]. split; [exact H1|]. split; [exact H2|].
  exact H3.
Defined.

(** X4: opening an open dialog again records the first overlay as the
    saved child, so the [Close] that follows puts that overlay back, not
    the widget the container held at the start: the container's child is
    then an object that did not exist before the first [Open], with the
    original child as its bottom layer, and it is also what the dialog
    keeps as saved child. *)
Theorem double_Open_restores_overlay s w c x width1 width2 app :
  dialogReady w s = true ->
  container_SubWidget c s = Ok x s ->
  ∃ s1 s2 s3 ov1,
    Open w c width1 app s = Ok tt s1 ∧
    heap s !! ov1 = None ∧
    Open w c width2 app s1 = Ok tt s2 ∧
    Close w app s2 = Ok tt s3 ∧
    container_SubWidget c s3 = Ok (Some ov1) s3 ∧
    heap s3 !! ov1 =
      Some (ObjOverlay (Some w) x VAlignMiddle RenderFlow HAlignMiddle
              width1) ∧
    SavedSubWidget w s3 = Ok (Some ov1) s3 ∧
    IsOpen w s3 = Ok false s3.
Proof.
  intros Hready Hc. unfold Open.
  destruct (OpenExt_post s w c x width1 RenderFlow app Hready Hc)
    as (s1 & ov1 & d & d1 & Hrun1 & Hfresh1 & _ & Hd1 & Hc1 & Hov1 & _
        & Hsc1 & _ & _ & Hcw1 & _ & Hready1 & _).
  destruct (OpenExt_post s1 w c (Some ov1) width2 RenderFlow app Hready1 Hc1)
    as (s2 & ov2 & d1' & d2 & Hrun2 & Hfresh2 & Hd1' & Hd2 & Hc2 & _ & _
        & Hsc2 & Hss2 & _ & _ & _ & _ & _ & Hframe2).
  rewrite Hd1 in Hd1'. injection Hd1' as <-.
  pose proof (container_SubWidget_inv _ _ _ _ Hc) as (_ & l & -> & _).
  destruct (Close_post s2 w d2 l (Some ov2) app Hd2 Hsc2 Hc2)
    as (s3 & d3 & Hclose & Hc3 & Hd3%widgetAt_lookup & Hopen3 & _ & Hss3 & _
        & _ & _ & _ & Hframe3).
  destruct (overlay_apart _ _ _ _ _ _ _ _ _ _ _ _ Hov1 Hd1 Hready1 Hc1)
    as (Hne_w & Hne_c & Hne_cw).
  exists s1, s2, s3, ov1. repeat split; try done.
  - by rewrite Hc3, Hss2.
  - rewrite Hframe3, Hframe2; [done..| congruence | done | congruence].
  - by rewrite (SavedSubWidget_run _ _ _ Hd3), Hss3, Hss2.
  - by rewrite (IsOpen_run _ _ _ Hd3), Hopen3.
Qed.

Lemma double_Open_restores_overlay_witness :
  dialogReady sceneDialog scene = true ∧
  container_SubWidget (Some sceneApp) scene = Ok (Some sceneView) scene ∧
  ∃ s3,
    (Open sceneDialog (Some sceneApp) RenderFixed None;;
     Open sceneDialog (Some sceneApp) RenderMax None;;
     Close sceneDialog None) scene = Ok tt s3 ∧
    container_SubWidget (Some sceneApp) s3 = Ok (Some 7%positive) s3 ∧
    heap scene !! 7%positive = None.
Proof.
  split; [vm_compute; reflexivity|]. split; [vm_compute; reflexivity|].
  destruct (double_Open_restores_overlay scene sceneDialog (Some sceneApp)
              (Some sceneView) RenderFixed RenderMax None)
    as (s1 & s2 & s3 & ov1 & H1 & Hfresh & H2 & H3 & Hc & _);
    [vm_compute; reflexivity ..|].
  exists s3.
  rewrite (bind_Ok _ _ _ _ _ H1), (bind_Ok _ _ _ _ _ H2).
  assert (ov1 = 7%positive) as ->.
  { vm_compute in H1. injection H1 as <-. vm_compute in H2.
    injection H2 as <-. vm_compute in H3. injection H3 as <-.
    vm_compute in Hc. by injection Hc as <-. }
  split; [exact H3|]. split; [exact Hc | exact Hfresh].
Defined.

(** X5: the cycle repeats: on a closed ready dialog any number [n] of
    rounds of [Open] then [Close] over the same container succeeds, leaves
    the container's original child in place and the dialog closed and
    ready, and fires the open/close registry [2 n] times. *)
Theorem openCloseTimes_restores n s w c x width app :
  dialogReady w s = true ->
  container_SubWidget c s = Ok x s ->
  IsOpen w s = Ok false s ->
  ∃ s',
    openCloseTimes n w c width app s = Ok tt s' ∧
    container_SubWidget c s' = Ok x s' ∧
    IsOpen w s' = Ok false s' ∧
    dialogReady w s' = true ∧
    firings OpenCloseCB w (trace s') =
      (firings OpenCloseCB w (trace s) + 2 * n)%nat.
Proof.
  revert s. induction n as [|n IH]; intros s Hready Hc Hopen.
  - exists s. repeat split; try done; lia.
  - destruct (OpenExt_post s w c x width RenderFlow app Hready Hc)
      as (s1 & ov & d & d1 & Hrun & _ & Hd%widgetAt_lookup & Hd1 & Hc1 & _
          & Hopen1 & Hsc1 & Hss1 & _ & Hcw1 & _ & Hready1 & Htr1 & _).
    rewrite (IsOpen_run _ _ _ Hd) in Hopen. injection Hopen as Hclosed.
    pose proof (container_SubWidget_inv _ _ _ _ Hc) as (_ & l & -> & _).
    destruct (Close_post s1 w d1 l (Some ov) app Hd1 Hsc1 Hc1)
      as (s2 & d2 & Hclose & Hc2 & Hd2 & Hopen2 & _ & _ & _ & Hcw2 & _
          & Htr2 & Hframe2).
    assert (Hready2 : dialogReady w s2 = true).
    { pose proof (dialogReady_inv _ _ Hready1)
        as (d1' & cw & inner & D & Hw1 & Hcw & Hcw').
      pose proof (widgetAt_lookup _ _ _ Hd1) as Hw1'.
      rewrite Hw1 in Hw1'. injection Hw1' as ->.
      pose proof (widgetAt_lookup _ _ _ Hd2) as Hw2.
      pose proof (container_SubWidget_inv _ _ _ _ Hc1) as (_ & l1 & El & Hl1).
      injection El as <-.
      unfold dialogReady. rewrite Hw2, Hcw2, Hcw.
      rewrite Hframe2, Hcw'; [done | congruence |].
      destruct Hl1 as [? | (? & ? & _)]; congruence. }
    destruct (IH s2) as (s' & Hrest & Hc' & Hopen' & Hready' & Htr');
      [ done | by rewrite Hc2, Hss1
      | by rewrite (IsOpen_run _ _ _ (widgetAt_lookup _ _ _ Hd2)), Hopen2 |].
    exists s'. split.
    { cbn [openCloseTimes]. unfold Open.
      rewrite (bind_Ok _ _ _ _ _ Hrun), (bind_Ok _ _ _ _ _ Hclose).
      exact Hrest. }
    repeat split; try done.
    rewrite Htr', Htr2, Hopen1, Htr1, Hclosed. count_trace.
Qed.

Lemma openCloseTimes_restores_witness :
  dialogReady sceneDialog scene = true ∧
  container_SubWidget (Some sceneApp) scene = Ok (Some sceneView) scene ∧
  IsOpen sceneDialog scene = Ok false scene ∧
  ∃ s',
    openCloseTimes 3 sceneDialog (Some sceneApp) RenderFixed None scene
      = Ok tt s' ∧
    container_SubWidget (Some sceneApp) s' = Ok (Some sceneView) s' ∧
    firings OpenCloseCB sceneDialog (trace s') = 6%nat.
Proof.
  split; [vm_compute; reflexivity|]. split; [vm_compute; reflexivity|].
  split; [vm_compute; reflexivity|].
  destruct (openCloseTimes_restores 3 scene sceneDialog (Some sceneApp)
              (Some sceneView) RenderFixed None)
    as (s' & Hrun & Hc & _ & _ & Htr); [vm_compute; reflexivity ..|].
  exists s'. split; [exact Hrun|]. split; [exact Hc | exact Htr].
Defined.

(** ** The dialog [New] returns *)

Lemma New_extends content opts s :
  content ≠ None ->
  ∃ res s',
    New content opts s = Ok res s' ∧
    heap s ⊆ heap s' ∧ dialogReady res s' = true.
Proof.
  intros Hcontent. destruct s as [h tr].
  destruct (New_run content opts h tr)
    as (Hrun & H12 & H23 & H13 & H1 & H2 & H3).
  destruct content as [c|]; [clear Hcontent|done].
  do 2 eexists. split; [exact Hrun|]. cbn [heap]. split.
  - apply map_subseteq_spec. intros i o Hi.
    rewrite !lookup_insert_ne by congruence. exact Hi.
  - unfold dialogReady. cbn [heap]. mrun. reflexivity.
Qed.

(** X6: on a content [c] that is not nil [New] returns and fires nothing.
    The dialog it returns lives at an address that was free, is closed,
    has no saved container and no saved child, is ready to be opened with
    its content wrapper sized weight 1, and answers [EscapeCloses] from
    the first options given (or the zero options); every object that was
    in the store is still there unchanged.  On a nil content [New]
    panics, whatever the options: nothing has fired and every object that
    was in the store is unchanged. *)
Theorem New_fresh_dialog c opts s :
  (∃ s', New None opts s = Panic NilDereference s' ∧
         heap s ⊆ heap s' ∧ trace s' = trace s) ∧
  ∃ res s',
    New (Some c) opts s = Ok res s' ∧
    heap s !! res = None ∧
    heap s ⊆ heap s' ∧
    trace s' = trace s ∧
    dialogReady res s' = true ∧
    contentSizing res s' = Some (RenderWithWeight 1) ∧
    IsOpen res s' = Ok false s' ∧
    SavedContainer res s' = Ok None s' ∧
    SavedSubWidget res s' = Ok None s' ∧
    EscapeCloses res s' =
      Ok (negb (NoEscapeClose
                  match opts with o :: _ => o | [] => zeroOptions end)) s'.
Proof.
  destruct s as [h tr]. split.
  { destruct (New_run None opts h tr)
      as (Hrun & H12 & _ & _ & H1 & H2 & _).
    eexists. split; [exact Hrun|]. cbn [heap trace].
    split; [|reflexivity].
    apply map_subseteq_spec. intros i o Hi.
    rewrite !lookup_insert_ne by congruence. exact Hi. }
  destruct (New_run (Some c) opts h tr)
    as (Hrun & H12 & H23 & H13 & H1 & H2 & H3).
  do 2 eexists. split; [exact Hrun|]. cbn [heap trace].
  split; [exact H2|]. split.
  { apply map_subseteq_spec. intros i o Hi.
    rewrite !lookup_insert_ne by congruence. exact Hi. }
  split; [reflexivity|].
  split; [unfold dialogReady; cbn [heap]; mrun; reflexivity|].
  split; [unfold contentSizing; cbn [heap]; mrun; reflexivity|].
  repeat split; mrun; reflexivity.
Qed.

Lemma container_SubWidget_mono c x s s' :
  heap s ⊆ heap s' ->
  container_SubWidget c s = Ok x s ->
  container_SubWidget c s' = Ok x s'.
Proof.
  intros Hsub Hc.
  apply container_SubWidget_inv in Hc as (_ & l & -> & Hl).
  unfold container_SubWidget, load, mbind, M_bind, bind.
  destruct Hl as [Hl | (dc & Hl & <-)];
    pose proof (lookup_weaken _ _ _ _ Hl Hsub) as Hl'; rewrite Hl'.
  - reflexivity.
  - by rewrite (SubWidget_run _ _ _ Hl').
Qed.

(** X7: the default buttons work end to end.  Build a dialog with [New]
    over a content that is not nil, open it over a container holding [x],
    and run the click callback that [New] gives a button without an
    action: the container holds [x] again and the dialog is closed. *)
Theorem default_button_closes ext s content opts c x width app widget i b :
  content ≠ None ->
  container_SubWidget c s = Ok x s ->
  requestedButtons opts !! i = Some b ->
  Action b = None ->
  ∃ res s1 s2 s3 dlg body t cb,
    New content opts s = Ok res s1 ∧
    widgetAt res s1 = Some dlg ∧ iwidget dlg = Some body ∧
    heap s1 !! body = Some (ObjTree t) ∧
    clickTargets t !! i = Some [cb] ∧
    Open res c width app s1 = Ok tt s2 ∧
    IsOpen res s2 = Ok true s2 ∧
    Changed ext cb app widget s2 = Ok tt s3 ∧
    container_SubWidget c s3 = Ok x s3 ∧
    IsOpen res s3 = Ok false s3.
Proof.
  intros Hcontent Hc Hb Hact.
  destruct (New_extends content opts s Hcontent)
    as (res & s1 & Hnew & Hsub & Hready).
  pose proof (container_SubWidget_mono _ _ _ _ Hsub Hc) as Hc1.
  destruct (OpenExt_post s1 res c x width RenderFlow app Hready Hc1)
    as (s2 & ov & d1 & d2 & Hopen & _ & _ & Hd2 & Hc2 & _ & Hopen2 & Hsc2
        & Hss2 & _).
  pose proof (container_SubWidget_inv _ _ _ _ Hc) as (_ & l & -> & _).
  destruct (Close_post s2 res d2 l (Some ov) app Hd2 Hsc2 Hc2)
    as (s3 & d3 & Hclose & Hc3 & Hd3%widgetAt_lookup & Hopen3 & _).
  destruct s as [h tr].
  destruct (New_run content opts h tr) as (Hrun & H12 & H23 & H13 & _).
  destruct content as [lc|]; [clear Hcontent|done].
  rewrite Hrun in Hnew. injection Hnew as <- <-.
  do 2 eexists. exists s2, s3. do 3 eexists.
  exists (expectedCallback (fresh (dom (<[fresh (dom h) :=
            ObjContainerWidget (Some lc) (RenderWithWeight 1)]> h))) i b).
  split; [exact Hrun|].
  split; [unfold widgetAt; cbn [heap]; by rewrite lookup_insert_eq|].
  split; [reflexivity|].
  split; [cbn [heap]; by rewrite lookup_insert_ne, lookup_insert_eq|].
  split.
  { rewrite clickTargets_dialogBody.
    destruct opts as [|o opts']; [done|]. cbn [requestedButtons] in Hb.
    rewrite (clickTargets_buttonColumns _ _ _ (Buttons o) id).
    rewrite list_lookup_imap, Hb. reflexivity. }
  split; [exact Hopen|].
  split.
  { rewrite (IsOpen_run _ _ _ (widgetAt_lookup _ _ _ Hd2)). by rewrite Hopen2. }
  split.
  { unfold Changed, expectedCallback. cbn [Fn]. rewrite Hact. exact Hclose. }
  split; [by rewrite Hc3, Hss2|].
  by rewrite (IsOpen_run _ _ _ Hd3), Hopen3.
Qed.

Lemma default_button_closes_witness :
  Some sceneContent ≠ None ∧
  container_SubWidget (Some sceneApp) scene = Ok (Some sceneView) scene ∧
  requestedButtons [sceneOptions] !! 1%nat = Some Cancel ∧
  Action Cancel = None ∧
  ∃ res s1 s2 s3 dlg body t cb,
    New (Some sceneContent) [sceneOptions] scene = Ok res s1 ∧
    widgetAt res s1 = Some dlg ∧ iwidget dlg = Some body ∧
    heap s1 !! body = Some (ObjTree t) ∧
    clickTargets t !! 1%nat = Some [cb] ∧
    Open res (Some sceneApp) RenderFixed None s1 = Ok tt s2 ∧
    IsOpen res s2 = Ok true s2 ∧
    Changed ignoreChanged cb None None s2 = Ok tt s3 ∧
    container_SubWidget (Some sceneApp) s3 = Ok (Some sceneView) s3 ∧
    IsOpen res s3 = Ok false s3.
Proof.
  split; [discriminate|].
  split; [vm_compute; reflexivity|]. split; [reflexivity|].
  split; [reflexivity|].
  apply (default_button_closes ignoreChanged scene (Some sceneContent)
           [sceneOptions] (Some sceneApp) (Some sceneView) RenderFixed
           None None 1%nat Cancel);
    [discriminate | vm_compute; reflexivity | reflexivity | reflexivity].
Defined.

(** ** Opening what cannot be opened *)

(** X8: [OpenExt] through a nil container panics at once, the world as it
    was.  On a dialog without a content wrapper (one that [New] did not
    build) it panics as well, after the overlay is made but before
    anything is recorded: the dialog is unchanged, the container still
    holds its child, and no registry has fired. *)
Theorem OpenExt_panics_untouched s0 w0 s w d c x width height app :
  widgetAt w s = Some d ->
  contentWrapper d = None ->
  container_SubWidget c s = Ok x s ->
  OpenExt w0 None width height app s0 = Panic NilDereference s0 ∧
  ∃ s', OpenExt w c width height app s = Panic NilDereference s' ∧
        widgetAt w s' = Some d ∧
        container_SubWidget c s' = Ok x s' ∧
        trace s' = trace s.
Proof.
  intros Hw%widgetAt_lookup Hcw Hc. split; [reflexivity|].
  apply container_SubWidget_inv in Hc as (_ & l & -> & Hl).
  destruct s as [h tr], d as [iw opts ss sc cw ow nf cbs].
  cbn [heap trace] in *. simpl in Hcw. subst cw.
  destruct Hl as [Hl | (dc & Hl & <-)].
  - assert (l ≠ w) by congruence.
    destruct (IRenderFixed width) eqn:Hf.
    all: eexists; split; [mrun; rewrite Hf; mrun; reflexivity|].
    all: split; [unfold widgetAt; mrun; reflexivity|].
    all: split; [mrun; reflexivity | reflexivity].
  - destruct (decide (l = w)) as [->|?];
      [rewrite Hw in Hl; injection Hl as <- | destruct dc].
    all: destruct (IRenderFixed width) eqn:Hf.
    all: eexists; split; [mrun; rewrite Hf; mrun; reflexivity|].
    all: split; [unfold widgetAt; mrun; reflexivity|].
    all: split; [mrun; reflexivity | reflexivity].
Qed.

Lemma OpenExt_panics_untouched_witness :
  widgetAt 3%positive sceneBare = Some zeroWidget ∧
  contentWrapper zeroWidget = None ∧
  container_SubWidget (Some 2%positive) sceneBare
    = Ok (Some 1%positive) sceneBare ∧
  ∃ s', OpenExt 3%positive (Some 2%positive) RenderFixed RenderFlow None
          sceneBare = Panic NilDereference s' ∧
        widgetAt 3%positive s' = Some zeroWidget ∧
        container_SubWidget (Some 2%positive) s' = Ok (Some 1%positive) s'.
Proof.
  split; [vm_compute; reflexivity|]. split; [reflexivity|].
  split; [vm_compute; reflexivity|].
  destruct (OpenExt_panics_untouched sceneBare 3%positive sceneBare
              3%positive zeroWidget (Some 2%positive) (Some 1%positive)
              RenderFixed RenderFlow None)
    as (_ & s' & Hrun & Hd & Hc & _);
    [vm_compute; reflexivity | reflexivity | vm_compute; reflexivity |].
  exists s'. split; [exact Hrun|]. split; [exact Hd | exact Hc].
Defined.

(** ** The accessors *)





(** ** Observers of the open/close registry *)

Lemma names_add_same cbs key f :
  (filter (fun kv : CallbackKey * string => kv.1 = key)
     (AddWidgetCallback cbs key f)).*2 =
  (filter (fun kv : CallbackKey * string => kv.1 = key) cbs).*2 ++ [f].
Proof.
  unfold AddWidgetCallback.
  rewrite filter_app, fmap_app, filter_cons, filter_nil.
  by rewrite decide_True.
Qed.

Lemma names_add_other cbs key key' f :
  key' ≠ key ->
  filter (fun kv : CallbackKey * string => kv.1 = key')
    (AddWidgetCallback cbs key f) =
  filter (fun kv : CallbackKey * string => kv.1 = key') cbs.
Proof.
  intros Hne. unfold AddWidgetCallback.
  rewrite filter_app, filter_cons, filter_nil.
  rewrite decide_False by (simpl; congruence). apply app_nil_r.
Qed.

Lemma remove_add cbs key f :
  RemoveWidgetCallback (AddWidgetCallback cbs key f) key f =
  RemoveWidgetCallback cbs key f.
Proof.
  unfold RemoveWidgetCallback, AddWidgetCallback.
  rewrite filter_app, filter_cons, filter_nil.
  rewrite decide_False by (simpl; tauto). apply app_nil_r.
Qed.

Lemma names_remove cbs key f :
  (filter (fun kv : CallbackKey * string => kv.1 = key)
     (RemoveWidgetCallback cbs key f)).*2 =
  filter (fun n => n ≠ f)
    ((filter (fun kv : CallbackKey * string => kv.1 = key) cbs).*2).
Proof.
  unfold RemoveWidgetCallback.
  induction cbs as [|[k n] cbs IH]; [reflexivity|].
  rewrite !filter_cons. cbn [fst snd].
  destruct (decide (k = key)) as [->|Hk].
  - destruct (decide (n = f)) as [->|Hn].
    + rewrite decide_False by tauto.
      rewrite fmap_cons, filter_cons. cbn [snd].
      rewrite decide_False by tauto. exact IH.
    + rewrite decide_True by tauto.
      rewrite filter_cons. cbn [fst]. rewrite decide_True by done.
      rewrite !fmap_cons, filter_cons. cbn [snd].
      rewrite decide_True by done. by rewrite IH.
  - rewrite decide_True by tauto.
    rewrite filter_cons. cbn [fst]. rewrite decide_False by done. exact IH.
Qed.

Lemma remove_absent cbs key f :
  f ∉ (filter (fun kv : CallbackKey * string => kv.1 = key) cbs).*2 ->
  RemoveWidgetCallback cbs key f = cbs.
Proof.
  unfold RemoveWidgetCallback.
  induction cbs as [|[k n] cbs IH]; [reflexivity|].
  rewrite !filter_cons. cbn [fst snd]. intros Hnot.
  destruct (decide (k = key)) as [->|Hk].
  - rewrite fmap_cons in Hnot. cbn [snd] in Hnot.
    apply not_elem_of_cons in Hnot as [Hn Hnot].
    rewrite decide_True by (intros [_ ?]; congruence).
    by rewrite IH.
  - rewrite decide_True by tauto. by rewrite IH.
Qed.

(** X11: an observer added with [OnOpenClose] is run, after those added
    before it, at the next change of the open state, and by no other
    registry; [RemoveOnOpenClose] takes the name out of the run list, and
    removing right after adding a name that was not registered puts the
    world back exactly. *)
Theorem OnOpenClose_observes s w d f b x app :
  widgetAt w s = Some d ->
  open d = negb b ->
  ∃ s1 s2 s3 s4 s5,
    OnOpenClose w f s = Ok tt s1 ∧ trace s1 = trace s ∧
    SetOpen w b app s1 = Ok tt s2 ∧
    trace s2 =
      trace s ++
      [ {| fkey := OpenCloseCB; ftarget := w;
           fran := (filter (fun kv => kv.1 = OpenCloseCB)
                      (Callbacks d)).*2 ++ [f] |} ] ∧
    SetSavedSubWidget w x app s1 = Ok tt s3 ∧
    trace s3 =
      trace s ++
      [ {| fkey := SavedSubWidgetCB; ftarget := w;
           fran := (filter (fun kv => kv.1 = SavedSubWidgetCB)
                      (Callbacks d)).*2 |} ] ∧
    RemoveOnOpenClose w f s1 = Ok tt s4 ∧
    SetOpen w b app s4 = Ok tt s5 ∧
    trace s5 =
      trace s ++
      [ {| fkey := OpenCloseCB; ftarget := w;
           fran := filter (fun n => n ≠ f)
                     ((filter (fun kv => kv.1 = OpenCloseCB)
                         (Callbacks d)).*2) |} ] ∧
    (f ∉ (filter (fun kv => kv.1 = OpenCloseCB) (Callbacks d)).*2 ->
     s4 = s).
Proof.
  intros Hw%widgetAt_lookup Hopen.
  assert (Hon : OnOpenClose w f s =
    Ok tt {| heap := <[w := ObjDialog (set_Callbacks
                        (AddWidgetCallback (Callbacks d) OpenCloseCB f) d)]>
                       (heap s);
             trace := trace s |}).
  { unfold OnOpenClose.
    by rewrite (bind_Ok _ _ _ _ _ (getWidget_run _ _ _ Hw)). }
  assert (Hoff : RemoveOnOpenClose w f
      {| heap := <[w := ObjDialog (set_Callbacks
                          (AddWidgetCallback (Callbacks d) OpenCloseCB f) d)]>
                   (heap s);
         trace := trace s |} =
    Ok tt {| heap := <[w := ObjDialog (set_Callbacks
                        (RemoveWidgetCallback (Callbacks d) OpenCloseCB f) d)]>
                       (heap s);
             trace := trace s |}).
  { unfold RemoveOnOpenClose.
    erewrite bind_Ok
      by (apply getWidget_run; cbn [heap]; apply lookup_insert_eq).
    unfold setWidget, store. cbn [heap trace Callbacks set_Callbacks].
    by rewrite insert_insert_eq, remove_add. }
  do 5 eexists.
  split; [exact Hon|]. split; [reflexivity|].
  split; [apply SetOpen_run; cbn [heap]; apply lookup_insert_eq|].
  split.
  { cbn [heap trace open set_Callbacks Callbacks]. rewrite Hopen.
    rewrite names_add_same. by destruct b. }
  split; [apply SetSavedSubWidget_run; cbn [heap]; apply lookup_insert_eq|].
  split.
  { cbn [heap trace set_Callbacks Callbacks].
    by rewrite names_add_other. }
  split; [exact Hoff|].
  split; [apply SetOpen_run; cbn [heap]; apply lookup_insert_eq|].
  split.
  { cbn [heap trace open set_Callbacks Callbacks]. rewrite Hopen.
    rewrite names_remove. by destruct b. }
  intros Habsent. rewrite (remove_absent _ _ _ Habsent).
  destruct s as [h tr], d. cbn in *. f_equal. by apply insert_id.
Qed.

Lemma OnOpenClose_observes_witness :
  widgetAt sceneDialog scene = Some sceneWidget ∧
  open sceneWidget = negb true ∧
  ∃ s2, (OnOpenClose sceneDialog "log";;
         SetOpen sceneDialog true None) scene = Ok tt s2 ∧
        trace s2 =
          [ {| fkey := OpenCloseCB; ftarget := sceneDialog;
               fran := ["log"] |} ].
Proof.
  split; [vm_compute; reflexivity|]. split; [vm_compute; reflexivity|].
  destruct (OnOpenClose_observes scene sceneDialog sceneWidget "log" true
              None None)
    as (s1 & s2 & _ & _ & _ & Hon & _ & Hset & Htr & _);
    [vm_compute; reflexivity | vm_compute; reflexivity |].
  exists s2. split; [by rewrite (bind_Ok _ _ _ _ _ Hon)|].
  rewrite Htr. vm_compute. reflexivity.
Defined.

(** ** The dimension accessors *)

(** The shapes of a dialog whose overlay is live. *)
Ltac live_cases Hwd Hht :=
  let Hlive := fresh "Hlive" in let Hlive' := fresh "Hlive'" in
  let Hov := fresh "Hov" in let Hov' := fresh "Hov'" in
  let Hl := fresh "Hl" in let Hdc := fresh "Hdc" in
  let d := fresh "d" in let dc := fresh "dc" in
  let ov := fresh "ov" in let ov' := fresh "ov'" in
  lazymatch type of Hwd with
  | Width ?w ?s = _ =>
      apply Width_inv in Hwd as (_ & ov & ? & ? & ? & ? & ? & Hlive & Hov);
      apply Height_inv in Hht
        as (_ & ov' & ? & ? & ? & ? & ? & Hlive' & Hov');
      rewrite Hlive in Hlive'; injection Hlive' as <-;
      rewrite Hov in Hov'; injection Hov' as -> -> -> -> -> <-;
      apply liveOverlay_inv in Hlive
        as (_ & d & ?l & ? & ? & ? & ? & ? & ? & ?Hw & ?Hsc & Hl & _);
      destruct s as [?h ?tr], d as [?iw ?opts ?ss ?sc ?cw ?ow ?nf ?cbs];
      cbn [heap trace savedContainer] in *; subst;
      assert (w ≠ ov) by congruence;
      assert (l ≠ ov) by (destruct Hl as [?|(? & ? & ?)]; congruence);
      destruct Hl as [Hl | (dc & Hl & Hdc)];
      [ assert (l ≠ w) by congruence
      | destruct (decide (l = w)) as [->|?];
        [ match goal with
          | Hw : _ !! w = Some _ |- _ => rewrite Hw in Hl; injection Hl as <-
          end
        | destruct dc as [?iw' ? ? ? ? ? ? ?] ];
        cbn in Hdc; subst ]
  end.

(** X12: on a dialog whose overlay is live, [SetWidth] is read back by
    [Width] and leaves [Height] alone, [SetHeight] is read back by
    [Height] and leaves [Width] alone, neither fires a registry, and
    writing the policy already there changes nothing at all. *)
Theorem dimensions_read_back s w wd ht d' app :
  Width w s = Ok wd s ->
  Height w s = Ok ht s ->
  (∃ s', SetWidth w d' app s = Ok tt s' ∧
         Width w s' = Ok d' s' ∧ Height w s' = Ok ht s' ∧
         trace s' = trace s) ∧
  (∃ s', SetHeight w d' app s = Ok tt s' ∧
         Height w s' = Ok d' s' ∧ Width w s' = Ok wd s' ∧
         trace s' = trace s) ∧
  SetWidth w wd app s = Ok tt s ∧
  SetHeight w ht app s = Ok tt s.
Proof.
  intros Hwd Hht. live_cases Hwd Hht.
  all: split; [eexists; split; [mrun; reflexivity|];
               repeat split; mrun; reflexivity|].
  all: split; [eexists; split; [mrun; reflexivity|];
               repeat split; mrun; reflexivity|].
  all: split; mrun; do 2 f_equal; by apply insert_id.
Qed.

Lemma dimensions_read_back_witness :
  Width sceneDialog sceneOpened = Ok RenderFixed sceneOpened ∧
  Height sceneDialog sceneOpened = Ok RenderFlow sceneOpened ∧
  ∃ s', SetWidth sceneDialog (RenderWithUnits 30) None sceneOpened
          = Ok tt s' ∧
        Width sceneDialog s' = Ok (RenderWithUnits 30) s' ∧
        Height sceneDialog s' = Ok RenderFlow s'.
Proof.
  split; [vm_compute; reflexivity|]. split; [vm_compute; reflexivity|].
  destruct (dimensions_read_back sceneOpened sceneDialog RenderFixed
              RenderFlow (RenderWithUnits 30) None)
    as ((s' & Hrun & Hwd & Hht & _) & _); [vm_compute; reflexivity ..|].
  exists s'. split; [exact Hrun|]. split; [exact Hwd | exact Hht].
Defined.

(** ** The dimension accessors off the overlay *)

Lemma bind_Panic {A B} (m : M A) (k : A -> M B) s why s' :
  m s = Panic why s' -> (m ≫= k) s = Panic why s'.
Proof. intros H. unfold mbind, M_bind, bind. by rewrite H. Qed.

Lemma assertOverlay_TypeAssertion x s :
  assertOverlay x s = Panic TypeAssertion s ↔
  x = None ∨
  ∃ lx o, x = Some lx ∧ heap s !! lx = Some o ∧ isOverlay o = false.
Proof.
  destruct x as [lx|]; [|split; [by left | done]].
  unfold assertOverlay, load, mbind, M_bind, bind.
  destruct (heap s !! lx) as [o|] eqn:E.
  - split.
    + intros H. right. exists lx, o. split; [done|]. split; [done|].
      by destruct o.
    + intros [? | (lx' & o' & Hx' & Hl' & Ho)]; [done|].
      injection Hx' as <-. rewrite E in Hl'. injection Hl' as <-.
      by destruct o.
  - split; [done|]. intros [? | (lx' & o' & Hx' & Hl' & _)]; [done|].
    injection Hx' as <-. congruence.
Qed.

Lemma accessors_panic s w why s' d' app :
  liveOverlay w s = Panic why s' ->
  Width w s = Panic why s' ∧ Height w s = Panic why s' ∧
  SetWidth w d' app s = Panic why s' ∧ SetHeight w d' app s = Panic why s'.
Proof.
  intros H. unfold Width, Height, SetWidth, SetHeight.
  by rewrite !(bind_Panic _ _ _ _ _ H).
Qed.

(** X13: the dimension accessors work only while the overlay is in place.
    On a dialog with no saved container all four panic with a nil
    dereference.  After [Open] and [Close] over a container whose child
    is not itself an overlay, all four panic on the type assertion: the
    saved container holds its old child again. *)
Theorem dimensions_need_overlay s0 w0 s w c x width d' app :
  SavedContainer w0 s0 = Ok None s0 ->
  dialogReady w s = true ->
  container_SubWidget c s = Ok x s ->
  assertOverlay x s = Panic TypeAssertion s ->
  (Width w0 s0 = Panic NilDereference s0 ∧
   Height w0 s0 = Panic NilDereference s0 ∧
   SetWidth w0 d' app s0 = Panic NilDereference s0 ∧
   SetHeight w0 d' app s0 = Panic NilDereference s0) ∧
  ∃ s', (Open w c width app;; Close w app) s = Ok tt s' ∧
        Width w s' = Panic TypeAssertion s' ∧
        Height w s' = Panic TypeAssertion s' ∧
        SetWidth w d' app s' = Panic TypeAssertion s' ∧
        SetHeight w d' app s' = Panic TypeAssertion s'.
Proof.
  intros Hnil Hready Hc Hx. split.
  - apply accessors_panic. unfold liveOverlay.
    by rewrite (bind_Ok _ _ _ _ _ Hnil).
  - destruct (OpenExt_post s w c x width RenderFlow app Hready Hc)
      as (s1 & ov & d & d1 & Hrun & Hfresh & Hd & Hd1 & Hc1 & _ & _ & Hsc1
          & Hss1 & _ & Hcw1 & _ & Hready1 & _ & Hframe1).
    pose proof (container_SubWidget_inv _ _ _ _ Hc) as (_ & l & -> & _).
    destruct (Close_post s1 w d1 l (Some ov) app Hd1 Hsc1 Hc1)
      as (s2 & d2 & Hclose & Hc2 & Hd2 & _ & Hsc2 & _ & _ & _ & _ & _
          & Hframe2).
    exists s2. split.
    { unfold Open. by rewrite (bind_Ok _ _ _ _ _ Hrun). }
    apply accessors_panic. unfold liveOverlay.
    pose proof (widgetAt_lookup _ _ _ Hd2) as Hw2.
    rewrite (bind_Ok _ _ _ _ _ (SavedContainer_run _ _ _ Hw2)), Hsc2.
    rewrite (bind_Ok _ _ _ _ _ Hc2), Hss1.
    apply assertOverlay_TypeAssertion.
    apply assertOverlay_TypeAssertion in Hx
      as [-> | (lx & o & -> & Hlx & Ho)]; [by left|].
    right. exists lx.
    destruct (decide (lx = w)) as [->|Hne_w]; [eauto|].
    destruct (decide (lx = l)) as [->|Hne_l].
    { apply container_SubWidget_inv in Hc2
        as (_ & l2 & [= <-] & [Hl2 | (dc & Hl2 & _)]); eauto. }
    pose proof (dialogReady_inv _ _ Hready1)
      as (d1' & cw & inner & D & Hw1 & Hcw & Hcw').
    rewrite (widgetAt_lookup _ _ _ Hd1) in Hw1. injection Hw1 as <-.
    destruct (decide (lx = cw)) as [->|Hne_cw].
    { exists (ObjContainerWidget inner D). split; [done|]. split; [|done].
      by rewrite Hframe2. }
    exists o. split; [done|]. split; [|done].
    rewrite Hframe2 by done.
    rewrite Hframe1; [done | done | congruence | congruence | congruence].
Qed.

Lemma dimensions_need_overlay_witness :
  SavedContainer sceneDialog scene = Ok None scene ∧
  dialogReady sceneDialog scene = true ∧
  container_SubWidget (Some sceneApp) scene = Ok (Some sceneView) scene ∧
  assertOverlay (Some sceneView) scene = Panic TypeAssertion scene ∧
  Width sceneDialog scene = Panic NilDereference scene ∧
  Width sceneDialog sceneReclosed = Panic TypeAssertion sceneReclosed.
Proof.
  split; [vm_compute; reflexivity|]. split; [vm_compute; reflexivity|].
  split; [vm_compute; reflexivity|]. split; [vm_compute; reflexivity|].
  destruct (dimensions_need_overlay scene sceneDialog scene sceneDialog
              (Some sceneApp) (Some sceneView) RenderFixed RenderMax None)
    as ((Hnil & _) & s' & Hrun & Hwd & _); [vm_compute; reflexivity ..|].
  split; [exact Hnil|].
  assert (s' = sceneReclosed) as <-; [|exact Hwd].
  vm_compute in Hrun. injection Hrun as <-. vm_compute. reflexivity.
Defined.

(** ** The maximizer off the overlay *)

(** X14: on a dialog with no saved container, [Maximize] with an
    unmaximized maximizer and [Unmaximize] with a maximized one panic
    with a nil dereference, the world untouched; the two guarded
    branches never look at the dialog and return false as usual. *)
Theorem Maximizer_needs_overlay s w m app :
  SavedContainer w s = Ok None s ->
  (Maxed m = false ->
     Maximize m w app s = Panic NilDereference s ∧
     Unmaximize m w app s = Ok (m, false) s) ∧
  (Maxed m = true ->
     Unmaximize m w app s = Panic NilDereference s ∧
     Maximize m w app s = Ok (m, false) s).
Proof.
  intros Hnil.
  assert (Hlive : liveOverlay w s = Panic NilDereference s).
  { unfold liveOverlay. by rewrite (bind_Ok _ _ _ _ _ Hnil). }
  split; intros Hm; unfold Maximize, Unmaximize; rewrite Hm; cbn [negb].
  - split; [|reflexivity]. unfold Width.
    by rewrite (bind_Panic _ _ _ _ _ (bind_Panic _ _ _ _ _ Hlive)).
  - split; [|reflexivity]. unfold SetWidth.
    by rewrite (bind_Panic _ _ _ _ _ (bind_Panic _ _ _ _ _ Hlive)).
Qed.

Lemma Maximizer_needs_overlay_witness :
  SavedContainer sceneDialog scene = Ok None scene ∧
  Maximize {| Maxed := false; mWidth := NilDimension;
              mHeight := NilDimension |} sceneDialog None scene
    = Panic NilDereference scene.
Proof.
  split; [vm_compute; reflexivity|].
  destruct (Maximizer_needs_overlay scene sceneDialog
              {| Maxed := false; mWidth := NilDimension;
                 mHeight := NilDimension |} None) as [H _];
    [vm_compute; reflexivity|].
  apply H. reflexivity.
Defined.

(** ** The methods *)

(** X15: [OpenGlobally] splices the dialog over the application's own
    child, the application serving as container, and the [Close] method
    puts that child back; with a nil application it panics at once. *)
Theorem OpenGlobally_over_app s w app view width :
  dialogReady w s = true ->
  container_SubWidget app s = Ok view s ->
  OpenGlobally w width None s = Panic NilDereference s ∧
  ∃ s1 s2 ov,
    OpenGlobally w width app s = Ok tt s1 ∧
    container_SubWidget app s1 = Ok (Some ov) s1 ∧
    heap s1 !! ov =
      Some (ObjOverlay (Some w) view VAlignMiddle RenderFlow HAlignMiddle
              width) ∧
    SavedContainer w s1 = Ok app s1 ∧
    Widget_Close w app s1 = Ok tt s2 ∧
    container_SubWidget app s2 = Ok view s2 ∧
    IsOpen w s2 = Ok false s2.
Proof.
  intros Hready Hc. split; [reflexivity|].
  destruct (OpenExt_post s w app view width RenderFlow app Hready Hc)
    as (s1 & ov & d & d1 & Hrun & _ & _ & Hd1 & Hc1 & Hov & _ & Hsc1 & Hss1
        & _).
  pose proof (container_SubWidget_inv _ _ _ _ Hc) as (_ & l & -> & _).
  destruct (Close_post s1 w d1 l (Some ov) (Some l) Hd1 Hsc1 Hc1)
    as (s2 & d2 & Hclose & Hc2 & Hd2%widgetAt_lookup & Hopen2 & _).
  exists s1, s2, ov. repeat split; try done.
  - rewrite (SavedContainer_run _ _ _ (widgetAt_lookup _ _ _ Hd1)).
    by rewrite Hsc1.
  - by rewrite Hc2, Hss1.
  - by rewrite (IsOpen_run _ _ _ Hd2), Hopen2.
Qed.

Lemma OpenGlobally_over_app_witness :
  dialogReady sceneDialog scene = true ∧
  container_SubWidget (Some sceneApp) scene = Ok (Some sceneView) scene ∧
  ∃ s1 s2,
    OpenGlobally sceneDialog RenderFixed (Some sceneApp) scene = Ok tt s1 ∧
    Widget_Close sceneDialog (Some sceneApp) s1 = Ok tt s2 ∧
    container_SubWidget (Some sceneApp) s2 = Ok (Some sceneView) s2.
Proof.
  split; [vm_compute; reflexivity|]. split; [vm_compute; reflexivity|].
  destruct (OpenGlobally_over_app scene sceneDialog (Some sceneApp)
              (Some sceneView) RenderFixed)
    as (_ & s1 & s2 & ov & Hopen & _ & _ & _ & Hclose & Hc & _);
    [vm_compute; reflexivity ..|].
  exists s1, s2. split; [exact Hopen|]. split; [exact Hclose | exact Hc].
Defined.

(** ** Events in sequence *)

Section Capture.

Variable UserInputIfSelectable :
  IWidget -> Event -> IRenderSize -> Selector -> IApp -> M bool.
Variable externalChanged :
  WidgetChangedFunction -> IApp -> IWidget -> M unit.
Variable w : loc.

(** The body answers every event and leaves the dialog record alone. *)
Hypothesis body_keeps_dialog :
  ∀ sub ev size focus app s,
    ∃ b s', UserInputIfSelectable sub ev size focus app s = Ok b s' ∧
            widgetAt w s' = widgetAt w s.

(** X16: input capture holds over any sequence of events.  On an open
    dialog whose body answers every event and does not touch the dialog,
    a list of events none of which is an effective cancel gesture is
    answered "handled" event by event, whatever the body answers, and the
    dialog is open at the end as at the start. *)
Theorem UserInputs_all_handled evs s d size focus app :
  widgetAt w s = Some d ->
  open d = true ->
  Forall (fun ev =>
            cancelGesture ev && negb (NoEscapeClose (options d)) = false)
    evs ->
  ∃ s',
    UserInputs UserInputIfSelectable externalChanged w evs size focus app s
      = Ok (replicate (length evs) true) s' ∧
    widgetAt w s' = Some d.
Proof.
  intros Hd Hopen Hevs. revert s Hd.
  induction Hevs as [|ev evs Hev _ IH]; intros s Hd.
  - exists s. split; [reflexivity | exact Hd].
  - destruct (body_keeps_dialog (iwidget d) ev size focus app s)
      as (b & s1 & Hb & Hkeep).
    rewrite Hd in Hkeep.
    destruct (IH s1 Hkeep) as (s' & Hrest & Hd').
    exists s'. split; [|exact Hd'].
    cbn [UserInputs length replicate].
    erewrite bind_Ok; [erewrite bind_Ok; [reflexivity | exact Hrest]|].
    rewrite (UserInput_open _ _ _ _ _ _ _ _ _
               (widgetAt_lookup _ _ _ Hd) Hopen), Hev.
    rewrite (bind_Ok _ _ _ tt s1); [reflexivity|].
    by rewrite (bind_Ok _ _ _ _ _ Hb).
Qed.

End Capture.

Lemma UserInputs_all_handled_witness :
  (∀ sub ev size focus app s,
     ∃ b s', declineInput sub ev size focus app s = Ok b s' ∧
             widgetAt sceneDialog s' = widgetAt sceneDialog s) ∧
  widgetAt sceneDialog sceneOpened = Some sceneOpenedWidget ∧
  open sceneOpenedWidget = true ∧
  Forall (fun ev =>
            cancelGesture ev
              && negb (NoEscapeClose (options sceneOpenedWidget)) = false)
    [EventKey 13; EventMouse 1 2 0; EventOther 0] ∧
  ∃ s',
    UserInputs declineInput ignoreChanged sceneDialog
      [EventKey 13; EventMouse 1 2 0; EventOther 0] SizeFixed
      {| Focus := true |} None sceneOpened = Ok [true; true; true] s' ∧
    widgetAt sceneDialog s' = Some sceneOpenedWidget.
Proof.
  assert (Hbody : ∀ sub ev size focus app s,
     ∃ b s', declineInput sub ev size focus app s = Ok b s' ∧
             widgetAt sceneDialog s' = widgetAt sceneDialog s).
  { intros. exists false, s. split; reflexivity. }
  assert (Hd : widgetAt sceneDialog sceneOpened = Some sceneOpenedWidget)
    by (vm_compute; reflexivity).
  assert (Hopen : open sceneOpenedWidget = true) by (vm_compute; reflexivity).
  assert (Hevs : Forall (fun ev =>
            cancelGesture ev
              && negb (NoEscapeClose (options sceneOpenedWidget)) = false)
    [EventKey 13; EventMouse 1 2 0; EventOther 0]).
  { repeat constructor. }
  split; [exact Hbody|]. split; [exact Hd|]. split; [exact Hopen|].
  split; [exact Hevs|].
  exact (UserInputs_all_handled declineInput ignoreChanged sceneDialog Hbody
           [EventKey 13; EventMouse 1 2 0; EventOther 0] sceneOpened
           sceneOpenedWidget SizeFixed {| Focus := true |} None
           Hd Hopen Hevs).
Defined.

(** ** The maximizer across a reopening *)

(** Disequalities with an address allocated later in a run. *)
Ltac solve_fresh :=
  solve [ assumption | congruence
        | eapply fresh_heap_ne; eassumption
        | apply not_eq_sym; eapply fresh_heap_ne; eassumption
        | eapply fresh_heap_ne;
          repeat first [ rewrite lookup_insert_eq
                       | rewrite lookup_insert_ne by solve_ne ];
          first [ reflexivity | eassumption ]
        | apply not_eq_sym; eapply fresh_heap_ne;
          repeat first [ rewrite lookup_insert_eq
                       | rewrite lookup_insert_ne by solve_ne ];
          first [ reflexivity | eassumption ] ].

Ltac heap_lookup' :=
  match goal with
  | |- context [ <[?l := ?o]> ?h !! ?l ] => rewrite (lookup_insert_eq h l o)
  | |- context [ <[?l := ?o]> ?h !! ?l' ] =>
      rewrite (lookup_insert_ne h l l' o) by solve_fresh
  | H : ?h !! ?l = Some _ |- context [ ?h !! ?l ] => rewrite H
  end.

Ltac mrun' := munfold; repeat (heap_lookup'; munfold).

(** X17: the maximizer's flag is not reset by closing and reopening.
    After [Maximize], [Close] and a new [OpenExt] over the saved
    container, the dialog has the policies of the new [OpenExt], yet
    [Maximize] refuses and returns false, and [Unmaximize] returns true
    and imposes the policies recorded before the dialog was closed. *)
Theorem Maximizer_survives_reopen s w m wd ht width2 height2 app :
  dialogReady w s = true ->
  Width w s = Ok wd s ->
  Height w s = Ok ht s ->
  Maxed m = false ->
  ∃ m1 s1 s2 c s3,
    Maximize m w app s = Ok (m1, true) s1 ∧
    Close w app s1 = Ok tt s2 ∧
    SavedContainer w s2 = Ok c s2 ∧
    OpenExt w c width2 height2 app s2 = Ok tt s3 ∧
    Width w s3 = Ok width2 s3 ∧ Height w s3 = Ok height2 s3 ∧
    Maximize m1 w app s3 = Ok (m1, false) s3 ∧
    ∃ m2 s4,
      Unmaximize m1 w app s3 = Ok (m2, true) s4 ∧
      Width w s4 = Ok wd s4 ∧ Height w s4 = Ok ht s4.
Proof.
  intros Hready Hwd Hht Hm.
  apply dialogReady_inv in Hready as (d0 & cw0 & inner & D & Hw0 & Hcw & Hcw').
  destruct m as [mx mw mh]. cbn in Hm. subst mx.
  live_cases Hwd Hht.
  all: match goal with
       | Hw : ?h !! ?a = Some (ObjDialog (Build_Widget _ _ _ _ _ _ _ _))
         |- _ => rewrite Hw in Hw0; injection Hw0 as <-; cbn in Hcw; subst
       end.
  all: repeat match goal with
         | H1 : ?h !! ?a = Some ?o1, H2 : ?h !! ?b = Some ?o2 |- _ =>
             lazymatch goal with
             | _ : a ≠ b |- _ => fail
             | _ => assert (a ≠ b) by congruence
             end
         end.
  all: destruct (IRenderFixed width2) eqn:Hf; destruct ow.
  all: do 5 eexists; split; [mrun; reflexivity|].
  all: split; [mrun; reflexivity|].
  all: split; [mrun; reflexivity|].
  all: split; [mrun'; rewrite Hf; mrun'; reflexivity|].
  all: split; [mrun'; reflexivity|].
  all: split; [mrun'; reflexivity|].
  all: split; [reflexivity|].
  all: do 2 eexists; split; [mrun'; reflexivity|].
  all: split; mrun'; reflexivity.
Qed.

Lemma Maximizer_survives_reopen_witness :
  dialogReady sceneDialog sceneOpened = true ∧
  Width sceneDialog sceneOpened = Ok RenderFixed sceneOpened ∧
  Height sceneDialog sceneOpened = Ok RenderFlow sceneOpened ∧
  ∃ m1 s1 s2 s3,
    Maximize {| Maxed := false; mWidth := NilDimension;
                mHeight := NilDimension |} sceneDialog None sceneOpened
      = Ok (m1, true) s1 ∧
    Close sceneDialog None s1 = Ok tt s2 ∧
    OpenExt sceneDialog (Some sceneApp) (RenderWithUnits 40) RenderMax None s2
      = Ok tt s3 ∧
    Width sceneDialog s3 = Ok (RenderWithUnits 40) s3 ∧
    Maximize m1 sceneDialog None s3 = Ok (m1, false) s3 ∧
    ∃ m2 s4,
      Unmaximize m1 sceneDialog None s3 = Ok (m2, true) s4 ∧
      Width sceneDialog s4 = Ok RenderFixed s4.
Proof.
  split; [vm_compute; reflexivity|]. split; [vm_compute; reflexivity|].
  split; [vm_compute; reflexivity|].
  destruct (Maximizer_survives_reopen sceneOpened sceneDialog
              {| Maxed := false; mWidth := NilDimension;
                 mHeight := NilDimension |}
              RenderFixed RenderFlow (RenderWithUnits 40) RenderMax None)
    as (m1 & s1 & s2 & c & s3 & Hmax & Hclose & Hsc & Hopen & Hwd & _
        & Hagain & m2 & s4 & Hun & Hwd4 & _);
    [vm_compute; reflexivity | vm_compute; reflexivity
    | vm_compute; reflexivity | reflexivity |].
  assert (c = Some sceneApp) as ->.
  { vm_compute in Hmax. injection Hmax as <- <-.
    vm_compute in Hclose. injection Hclose as <-.
    vm_compute in Hsc. by injection Hsc as <-. }
  exists m1, s1, s2, s3. split; [exact Hmax|]. split; [exact Hclose|].
  split; [exact Hopen|]. split; [exact Hwd|]. split; [exact Hagain|].
  exists m2, s4. split; [exact Hun | exact Hwd4].
Defined.

(** ** What a round of [Open] and [Close] costs *)

(** X18: a round of [Open] and [Close] gives the store back but for three
    things: the dialog's own record (which keeps its body, options and
    observers), the dialog's content wrapper, and the overlay left
    behind at an address that was free.  Every other object, the
    container included, is exactly as it was. *)
Theorem Open_Close_store_round_trip s w d c x width app :
  widgetAt w s = Some d ->
  dialogReady w s = true ->
  container_SubWidget c s = Ok x s ->
  ∃ s' ov d',
    (Open w c width app;; Close w app) s = Ok tt s' ∧
    heap s !! ov = None ∧
    (∀ l, l ≠ w -> Some l ≠ contentWrapper d -> l ≠ ov ->
          heap s' !! l = heap s !! l) ∧
    widgetAt w s' = Some d' ∧
    iwidget d' = iwidget d ∧ options d' = options d ∧
    Callbacks d' = Callbacks d ∧ contentWrapper d' = contentWrapper d.
Proof.
  intros Hd%widgetAt_lookup Hready Hc. scene_cases Hready Hc.
  all: match goal with
       | Hw : ?h !! ?a = Some (ObjDialog (Build_Widget _ _ _ _ _ _ _ _))
         |- _ => rewrite Hw in Hd; injection Hd as <-
       end.
  all: destruct (IRenderFixed width) eqn:Hf; destruct ow.
  all: eexists; exists (fresh (dom h)); eexists.
  all: split; [mrun; rewrite Hf; mrun; reflexivity|].
  all: split; [apply not_elem_of_dom, is_fresh|].
  all: split; [|split; [unfold widgetAt; mrun; reflexivity|done]].
  all: intros l0 ? ? ?; simpl in *.
  all: repeat (rewrite lookup_insert; case_decide; [subst; congruence|]).
  all: reflexivity.
Qed.

Lemma Open_Close_store_round_trip_witness :
  widgetAt sceneDialog scene = Some sceneWidget ∧
  dialogReady sceneDialog scene = true ∧
  container_SubWidget (Some sceneApp) scene = Ok (Some sceneView) scene ∧
  ∃ s',
    (Open sceneDialog (Some sceneApp) RenderFixed None;;
     Close sceneDialog None) scene = Ok tt s' ∧
    heap s' !! sceneApp = heap scene !! sceneApp ∧
    heap s' !! sceneView = heap scene !! sceneView.
Proof.
  split; [vm_compute; reflexivity|]. split; [vm_compute; reflexivity|].
  split; [vm_compute; reflexivity|].
  destruct (Open_Close_store_round_trip scene sceneDialog sceneWidget
              (Some sceneApp) (Some sceneView) RenderFixed None)
    as (s' & ov & d' & Hrun & Hfresh & Hframe & _);
    [vm_compute; reflexivity ..|].
  exists s'. split; [exact Hrun|].
  assert (Hov : ∀ l o, heap scene !! l = Some o -> l ≠ ov)
    by (intros l o Hl ->; congruence).
  split; apply Hframe;
    try (vm_compute; discriminate);
    eapply Hov; vm_compute; reflexivity.
Defined.
